(** * PowerSHAP explainers: a shallow embedding of
      [powershap/shap_wrappers/shap_explainer.py]

    The file embeds the iteration engine [ShapExplainer.explain] and the four
    explainer classes ([CatboostExplainer], [EnsembleExplainer],
    [LinearExplainer], [DeepLearningExplainer]) and proves properties of them.

    - numpy scalars are IEEE-754 numbers ([spec_float]): binary64 for the
      computations, binary32 for the stored importances;
    - Python exceptions are an error type, mutable objects (data frames and
      estimators) live in stores indexed by references;
    - the external libraries (numpy's generator, scikit-learn's splitter, the
      model fitting routines and the shap explainers) are the fields of a
      [Backend]; every call to them is recorded in a trace. *)

From Stdlib Require Import ZArith Floats.SpecFloat.
From stdpp Require Import gmap strings list fin_maps.

Local Open Scope Z_scope.

(** ** Floating-point numbers *)

Abbreviation float := spec_float (only parsing).

Definition f64_add : float → float → float := SFadd 53 1024.
Definition f64_div : float → float → float := SFdiv 53 1024.

(** An integer converted to binary64 (round to nearest even). *)
Definition f64_of_Z (z : Z) : float := binary_normalize 53 1024 z 0 false.

(** A binary64 number converted to binary32, as [astype("float32")] does:
    rounding to nearest even, overflow to an infinity. *)
Definition f64_to_f32 (x : float) : float :=
  match x with
  | S754_finite s m e => binary_round 24 128 s m e
  | _ => x
  end.

Definition isfinite (x : float) : bool :=
  match x with
  | S754_zero _ | S754_finite _ _ _ => true
  | S754_infinity _ | S754_nan => false
  end.

Definition isnan (x : float) : bool :=
  match x with
  | S754_nan => true
  | _ => false
  end.

(** [x >= 0] on floats: false on NaN, true on both zeros. *)
Definition ge0 (x : float) : bool := SFleb (S754_zero false) x.

(** ** numpy arrays *)

(** A two-dimensional array, row-major, with its number of columns (an array
    without rows still has a width). Arrays of higher rank, which the shap
    explainers return for some classifiers, are not represented: what is
    proved of attribution matrices is proved of two-dimensional ones. *)
Record ndarray := { ncols : nat; rows : list (list float) }.

Definition np_abs (A : ndarray) : ndarray :=
  {| ncols := ncols A; rows := map (map SFabs) (rows A) |}.

Definition column (j : nat) (A : ndarray) : list float :=
  map (λ r, nth j r (S754_zero false)) (rows A).

(** The additions which [add.reduce] makes to sum one column: [PZero] is the
    initial value [0.0], [PRow i] the value in row [i]. numpy chooses the
    order and the grouping from the memory layout of the array (row after
    row when axis 0 is not contiguous, eight partial sums and pairwise
    blocks when it is), and floating-point sums depend on them. *)
Inductive sum_plan :=
  | PZero
  | PRow (i : nat)
  | PAdd (l r : sum_plan).

Fixpoint plan_sum (p : sum_plan) (col : list float) : float :=
  match p with
  | PZero => S754_zero false
  | PRow i => nth i col (S754_zero false)
  | PAdd l r => f64_add (plan_sum l col) (plan_sum r col)
  end.

(** The rows which a plan adds. *)
Fixpoint plan_rows (p : sum_plan) : list nat :=
  match p with
  | PZero => []
  | PRow i => [i]
  | PAdd l r => plan_rows l ++ plan_rows r
  end.

(** The plan of an axis that is not contiguous: from [0.0], one row after
    the other. *)
Fixpoint sequential_plan (n : nat) : sum_plan :=
  match n with
  | O => PZero
  | S n' => PAdd (sequential_plan n') (PRow n')
  end.

(** The plan of the unrolled loop on a contiguous column of eight rows:
    eight partial sums, added in pairs. *)
Definition eight_lane_plan : sum_plan :=
  PAdd PZero
       (PAdd (PAdd (PAdd (PRow 0) (PRow 1)) (PAdd (PRow 2) (PRow 3)))
             (PAdd (PAdd (PRow 4) (PRow 5)) (PAdd (PRow 6) (PRow 7)))).

(** [np.mean(A, axis=0)]: the sum of each column, by the plan which numpy
    has for this column of this array, divided by the row count. *)
Definition np_mean_axis0 (plan : ndarray → nat → sum_plan) (A : ndarray)
  : list float :=
  map (λ j, f64_div (plan_sum (plan A j) (column j A))
                    (f64_of_Z (Z.of_nat (length (rows A)))))
      (seq 0 (ncols A)).

Definition astype_float32 (v : list float) : list float := map f64_to_f32 v.

(** ** Exceptions and the monad of Python computations *)

Inductive PyExc :=
  | AssertionError
  | NotImplementedError
  | UnboundLocalError
  | ValueError
  | IndexError
  | ModuleNotFoundError
  | ReferenceError
  | BackendError (msg : string).

#[global] Instance PyExc_eq_dec : EqDecision PyExc.
Proof. solve_decision. Defined.

(** A computation over a state [S] which returns a value or raises; the
    state changes made before an exception are kept. *)
Definition Py (S A : Type) : Type := S → (PyExc + A) * S.

#[global] Instance Py_ret {S} : MRet (Py S) :=
  λ A (a : A) (s : S), (inr a, s).

#[global] Instance Py_bind {S} : MBind (Py S) :=
  λ A B (f : A → Py S B) (m : Py S A) (s : S),
    match m s with
    | (inl e, s') => (inl e, s')
    | (inr a, s') => f a s'
    end.

Definition raise {S A} (e : PyExc) : Py S A := λ s, (inl e, s).

(** A primitive step given by its effect on the state. *)
Definition step {S A} (f : S → (PyExc + A) * S) : Py S A := f.

Definition py_assert {S} (b : bool) : Py S unit :=
  if b then mret tt else raise AssertionError.

(** A pure call that may raise. *)
Definition call {S A} (r : PyExc + A) : Py S A := λ s, (r, s).

(** [try: m except: h] with a bare [except]. *)
Definition try_except {S A} (m h : Py S A) : Py S A :=
  λ s, match m s with
       | (inl _, s') => h s'
       | (inr a, s') => (inr a, s')
       end.

(** [for b in l: a = f a b]. *)
Fixpoint for_each {S A B} (f : A → B → Py S A) (l : list B) (a : A) : Py S A :=
  match l with
  | [] => mret a
  | b :: l' => a' ← f a b; for_each f l' a'
  end.

(** ** Objects: references and stores *)

Definition ref := nat.

Definition alloc {V} (h : gmap ref V) (v : V) : ref * gmap ref V :=
  let l := fresh (dom h) in (l, <[l := v]> h).

(** ** pandas data frames *)

(** Row-major: [data] has one list per row, each with one cell per column
    label. *)
Record DataFrame := { columns : list string; data : list (list float) }.

Definition len (df : DataFrame) : nat := length (data df).

Definition values (df : DataFrame) : ndarray :=
  {| ncols := length (columns df); rows := data df |}.

(** [a[idx]] with a list of positions; a position out of range raises. *)
Definition take {A} (a : list A) (idx : list nat) : PyExc + list A :=
  match mapM (λ i, a !! i) idx with
  | Some r => inr r
  | None => inl IndexError
  end.

(** [df.iloc[idx]]: a new frame with the selected rows. *)
Definition iloc (df : DataFrame) (idx : list nat) : PyExc + DataFrame :=
  match take (data df) idx with
  | inr r => inr {| columns := columns df; data := r |}
  | inl e => inl e
  end.

(** [df[name] = v]: the column is replaced when the label exists, appended
    as the last column otherwise; [v] must have one value per row. *)
Definition setitem (df : DataFrame) (name : string) (v : list float)
  : PyExc + DataFrame :=
  if decide (length v = len df) then
    if decide (name ∈ columns df) then
      inr {| columns := columns df;
             data := zip_with
                       (λ row x, zip_with (λ c old, if decide (c = name) then x else old)
                                          (columns df) row)
                       (data df) v |}
    else
      inr {| columns := columns df ++ [name];
             data := zip_with (λ row x, row ++ [x]) (data df) v |}
  else inl ValueError.

(** [np.array(shaps)] on a list of one-dimensional arrays: the rows must
    have one length. *)
Definition np_array (shaps : list (list float)) : PyExc + list (list float) :=
  match shaps with
  | [] => inr []
  | r :: _ =>
      if forallb (λ r', Nat.eqb (length r') (length r)) shaps
      then inr shaps else inl ValueError
  end.

(** [pd.DataFrame(data=shaps, columns=cols)]: the width of the data must be
    the number of labels. *)
Definition pd_DataFrame (shaps : list (list float)) (cols : list string)
  : PyExc + DataFrame :=
  if forallb (λ r, Nat.eqb (length r) (length cols)) shaps
  then inr {| columns := cols; data := shaps |}
  else inl ValueError.

(** ** Estimators *)

Inductive PyVal :=
  | VNone
  | VBool (b : bool)
  | VInt (z : Z)
  | VStr (s : string).

(** The classes which the [supports_model] predicates test with
    [isinstance]. *)
Inductive ModelClass :=
  | CatBoostRegressor | CatBoostClassifier
  | ForestRegressor | ForestClassifier | BaseGradientBoosting
  | LinearClassifierMixin | LinearModel | BaseSGD
  | KerasModel | TorchModule.

#[global] Instance ModelClass_eq_dec : EqDecision ModelClass.
Proof. solve_decision. Defined.

(** What a fitted estimator has learnt is represented by what it was fitted
    on. *)
Record Fitted := {
  fit_X : ndarray;
  fit_y : list float;
  fit_eval_set : option (ndarray * list float)
}.

(** [est_class] lists the classes, among those above, which the estimator
    is an instance of: a class may inherit from several of them (a
    stochastic-gradient classifier is both a [BaseSGD] and a
    [LinearClassifierMixin]), or from none. *)
Record Estimator := {
  est_class : list ModelClass;
  est_params : gmap string PyVal;
  est_fitted : option Fitted
}.

(** [isinstance(model, tuple(classes))]. *)
Definition isinstance (m : Estimator) (classes : list ModelClass) : bool :=
  existsb (λ c, bool_decide (c ∈ classes)) (est_class m).

(** ** The external libraries *)

Record Backend := {
  (** the plan of [add.reduce] along axis 0 for a column of an array *)
  add_reduce_plan : ndarray → nat → sum_plan;
  (** whether [import tensorflow] and [import torch] find their module *)
  tensorflow_importable : bool;
  torch_importable : bool;
  (** [RandomState(seed).uniform(low, high, size)] *)
  RandomState_uniform : Z → float → float → nat → PyExc + list float;
  (** [train_test_split(arr, test_size=, random_state=, stratify=)] *)
  train_test_split :
    list nat → float → Z → option (list float) → PyExc + (list nat * list nat);
  (** the exception raised by [model.fit(X, y[, eval_set])], if any *)
  fit_raises :
    Estimator → ndarray → list float → option (ndarray * list float) → option PyExc;
  (** [shap.TreeExplainer(model).shap_values(X)] *)
  TreeExplainer_shap_values : Estimator → ndarray → PyExc + ndarray;
  (** [shap.explainers.Linear(model, background).shap_values(X)] *)
  Linear_shap_values : Estimator → ndarray → ndarray → PyExc + ndarray
}.

(** ** Operations on estimators in the store *)

Abbreviation ModelStore := (gmap ref Estimator) (only parsing).

Definition get_model (m : ref) : Py ModelStore Estimator :=
  step (λ h, match h !! m with
             | Some e => (inr e, h)
             | None => (inl ReferenceError, h)
             end).

(** [sklearn.base.clone(model)]: a new unfitted estimator with the same
    parameters. *)
Definition clone (m : ref) : Py ModelStore ref :=
  e ← get_model m;
  step (λ h, let '(l, h') := alloc h {| est_class := est_class e;
                                        est_params := est_params e;
                                        est_fitted := None |} in
             (inr l, h')).

(** [model.copy()] of catboost: a new estimator with the same parameters
    and the same trained state. *)
Definition catboost_copy (m : ref) : Py ModelStore ref :=
  e ← get_model m;
  step (λ h, let '(l, h') := alloc h e in (inr l, h')).

(** [set_params(key=v)] of scikit-learn: raises when the estimator has no
    parameter [key]; returns the estimator itself. *)
Definition sklearn_set_params (m : ref) (key : string) (v : PyVal)
  : Py ModelStore ref :=
  e ← get_model m;
  if decide (key ∈ dom (est_params e)) then
    step (λ h, (inr m, <[m := {| est_class := est_class e;
                                 est_params := <[key := v]> (est_params e);
                                 est_fitted := est_fitted e |}]> h))
  else raise ValueError.

(** [set_params(key=v)] of catboost: stores the parameter whatever its
    name; returns the estimator itself. *)
Definition catboost_set_params (m : ref) (key : string) (v : PyVal)
  : Py ModelStore ref :=
  e ← get_model m;
  step (λ h, (inr m, <[m := {| est_class := est_class e;
                               est_params := <[key := v]> (est_params e);
                               est_fitted := est_fitted e |}]> h)).

Section WithBackend.
Context (B : Backend).

(** [model.fit(X, y)] or [model.fit(X, y, eval_set=...)]: fits the
    estimator in place. *)
Definition model_fit (m : ref) (X : ndarray) (y : list float)
           (eval_set : option (ndarray * list float)) : Py ModelStore unit :=
  e ← get_model m;
  match fit_raises B e X y eval_set with
  | Some exc => raise exc
  | None =>
      step (λ h, (inr tt,
                  <[m := {| est_class := est_class e;
                            est_params := est_params e;
                            est_fitted := Some {| fit_X := X; fit_y := y;
                                                  fit_eval_set := eval_set |} |}]> h))
  end.

Definition tree_shap_values (m : ref) (X : ndarray) : Py ModelStore ndarray :=
  e ← get_model m; call (TreeExplainer_shap_values B e X).

Definition linear_shap_values (m : ref) (background X : ndarray)
  : Py ModelStore ndarray :=
  e ← get_model m; call (Linear_shap_values B e background X).
End WithBackend.

(** ** The explainer interface *)

(** [class ShapExplainer(ABC)]: an explainer holds a reference to its model
    ([self.model]); subclasses give [supports_model] and [_fit_get_shap]. *)
Class ShapExplainer (E : Type) := {
  new : ref → E;
  model : E → ref;
  supports_model : Backend → Estimator → PyExc + bool;
  _fit_get_shap :
    Backend → E → ndarray → list float → ndarray → list float → Z →
    Py ModelStore ndarray
}.

(** [ShapExplainer.__init__]. *)
Definition __init__ `{ShapExplainer E} (B : Backend) (m : ref)
  : Py ModelStore E :=
  e ← get_model m;
  supported ← call (supports_model B e);
  py_assert supported;;
  mret (new m).

Module CatboostExplainer.
Record t := { model : ref }.

Definition supports_model (B : Backend) (m : Estimator) : PyExc + bool :=
  let supported_models := [CatBoostRegressor; CatBoostClassifier] in
  inr (isinstance m supported_models).

Definition _fit_get_shap (B : Backend) (self : t)
           (X_train : ndarray) (Y_train : list float)
           (X_val : ndarray) (Y_val : list float) (random_seed : Z)
  : Py ModelStore ndarray :=
  c ← catboost_copy (model self);
  PowerSHAP_model ← catboost_set_params c "random_seed" (VInt random_seed);
  model_fit B PowerSHAP_model X_train Y_train (Some (X_val, Y_val));;
  tree_shap_values B PowerSHAP_model X_val.
End CatboostExplainer.

Module EnsembleExplainer.
Record t := { model : ref }.

Definition supports_model (B : Backend) (m : Estimator) : PyExc + bool :=
  let supported_models :=
    [ForestRegressor; ForestClassifier; BaseGradientBoosting] in
  inr (isinstance m supported_models).

Definition _fit_get_shap (B : Backend) (self : t)
           (X_train : ndarray) (Y_train : list float)
           (X_val : ndarray) (Y_val : list float) (random_seed : Z)
  : Py ModelStore ndarray :=
  c ← clone (model self);
  PowerSHAP_model ← sklearn_set_params c "random_state" (VInt random_seed);
  model_fit B PowerSHAP_model X_train Y_train None;;
  tree_shap_values B PowerSHAP_model X_val.
End EnsembleExplainer.

Module LinearExplainer.
Record t := { model : ref }.

Definition supports_model (B : Backend) (m : Estimator) : PyExc + bool :=
  let supported_models := [LinearClassifierMixin; LinearModel; BaseSGD] in
  inr (isinstance m supported_models).

Definition _fit_get_shap (B : Backend) (self : t)
           (X_train : ndarray) (Y_train : list float)
           (X_val : ndarray) (Y_val : list float) (random_seed : Z)
  : Py ModelStore ndarray :=
  PowerSHAP_model ←
    try_except
      (c ← clone (model self);
       sklearn_set_params c "random_state" (VInt random_seed))
      (clone (model self));
  model_fit B PowerSHAP_model X_train Y_train None;;
  linear_shap_values B PowerSHAP_model X_train X_val.
End LinearExplainer.

Module DeepLearningExplainer.
Record t := { model : ref }.

(** The two imports come first: each raises when its module is not
    installed. *)
Definition supports_model (B : Backend) (m : Estimator) : PyExc + bool :=
  if tensorflow_importable B then
    if torch_importable B then
      let supported_models := [KerasModel; TorchModule] in
      inr (isinstance m supported_models)
    else inl ModuleNotFoundError
  else inl ModuleNotFoundError.

Definition _fit_get_shap (B : Backend) (self : t)
           (X_train : ndarray) (Y_train : list float)
           (X_val : ndarray) (Y_val : list float) (random_seed : Z)
  : Py ModelStore ndarray :=
  raise NotImplementedError.
End DeepLearningExplainer.

#[global] Instance Catboost_ShapExplainer : ShapExplainer CatboostExplainer.t := {|
  new := CatboostExplainer.Build_t;
  model := CatboostExplainer.model;
  supports_model := CatboostExplainer.supports_model;
  _fit_get_shap := CatboostExplainer._fit_get_shap
|}.

#[global] Instance Ensemble_ShapExplainer : ShapExplainer EnsembleExplainer.t := {|
  new := EnsembleExplainer.Build_t;
  model := EnsembleExplainer.model;
  supports_model := EnsembleExplainer.supports_model;
  _fit_get_shap := EnsembleExplainer._fit_get_shap
|}.

#[global] Instance Linear_ShapExplainer : ShapExplainer LinearExplainer.t := {|
  new := LinearExplainer.Build_t;
  model := LinearExplainer.model;
  supports_model := LinearExplainer.supports_model;
  _fit_get_shap := LinearExplainer._fit_get_shap
|}.

#[global] Instance DeepLearning_ShapExplainer
  : ShapExplainer DeepLearningExplainer.t := {|
  new := DeepLearningExplainer.Build_t;
  model := DeepLearningExplainer.model;
  supports_model := DeepLearningExplainer.supports_model;
  _fit_get_shap := DeepLearningExplainer._fit_get_shap
|}.

(** ** The state of a run *)

(** The calls to the collaborators, in the order they are made. *)
Inductive Event :=
  | EvUniform (seed : Z) (size : nat)
  | EvSplit (arr : list nat) (test_size : float) (random_state : Z)
            (stratify : option (list float))
  | EvFitGetShap (X_train : ndarray) (Y_train : list float)
                 (X_val : ndarray) (Y_val : list float) (random_seed : Z)
                 (result : PyExc + ndarray).

Record State := {
  frames : gmap ref DataFrame;
  models : gmap ref Estimator;
  trace : list Event
}.

Definition log (ev : Event) : Py State unit :=
  step (λ σ, (inr tt, {| frames := frames σ; models := models σ;
                         trace := trace σ ++ [ev] |})).

Definition get_frame (X : ref) : Py State DataFrame :=
  step (λ σ, match frames σ !! X with
             | Some df => (inr df, σ)
             | None => (inl ReferenceError, σ)
             end).

(** [X.copy(deep=True)]: a new frame object with the same contents. *)
Definition copy_deep (X : ref) : Py State ref :=
  df ← get_frame X;
  step (λ σ, let '(l, fr) := alloc (frames σ) df in
             (inr l, {| frames := fr; models := models σ; trace := trace σ |})).

(** [X[name] = v] on the object [X] refers to. *)
Definition frame_setitem (X : ref) (name : string) (v : list float)
  : Py State unit :=
  df ← get_frame X;
  df' ← call (setitem df name v);
  step (λ σ, (inr tt, {| frames := <[X := df']> (frames σ);
                         models := models σ; trace := trace σ |})).

Section Engine.
Context (B : Backend) `{ShapExplainer E}.

Definition uniform (seed : Z) (size : nat) : Py State (list float) :=
  log (EvUniform seed size);;
  call (RandomState_uniform B seed (f64_of_Z (-1)) (f64_of_Z 1) size).

Definition split (arr : list nat) (test_size : float) (random_state : Z)
           (stratify : option (list float)) : Py State (list nat * list nat) :=
  log (EvSplit arr test_size random_state stratify);;
  call (train_test_split B arr test_size random_state stratify).

(** The call [self._fit_get_shap(...)]: it runs on the estimators only. *)
Definition fit_get_shap (self : E) (X_train : ndarray) (Y_train : list float)
           (X_val : ndarray) (Y_val : list float) (random_seed : Z)
  : Py State ndarray :=
  step (λ σ,
    let '(r, h) := _fit_get_shap B self X_train Y_train X_val Y_val
                                 random_seed (models σ) in
    (r, {| frames := frames σ; models := h;
           trace := trace σ ++ [EvFitGetShap X_train Y_train X_val Y_val
                                             random_seed r] |})).

Definition random_col_name : string := "random_uniform_feature".

(** The body of the loop of [explain]; the variables that live across
    iterations are [shaps] and [X_train] (unbound before the first
    iteration). *)
Definition explain_body (self : E) (X : ref) (y : list float)
           (val_size : float) (stratify : option (list float))
           (random_seed_start : Z)
           (vars : list (list float) * option DataFrame) (i : Z)
  : Py State (list (list float) * option DataFrame) :=
  let shaps := vars.1 in
  df ← get_frame X;
  random_uniform_feature ← uniform (i + random_seed_start) (len df);
  frame_setitem X "random_uniform_feature" random_uniform_feature;;
  df ← get_frame X;
  idx ← split (seq 0 (len df)) val_size i stratify;
  let '(train_idx, val_idx) := idx in
  df ← get_frame X;
  X_train ← call (iloc df train_idx);
  X_val ← call (iloc df val_idx);
  Y_train ← call (take y train_idx);
  Y_val ← call (take y val_idx);
  Shap_values ← fit_get_shap self (values X_train) Y_train
                             (values X_val) Y_val (i + random_seed_start);
  let Shap_values := np_abs Shap_values in
  mret (shaps ++ [astype_float32 (np_mean_axis0 (add_reduce_plan B) Shap_values)],
        Some X_train).

(** [ShapExplainer.explain]. *)
Definition explain (self : E) (X : ref) (y : list float) (loop_its : Z)
           (val_size : float) (stratify : option (list float))
           (random_seed_start : Z) : Py State DataFrame :=
  df ← get_frame X;
  py_assert (negb (bool_decide (random_col_name ∈ columns df)));;
  X ← copy_deep X;
  vars ← for_each (explain_body self X y val_size stratify random_seed_start)
                  (seqZ 0 loop_its) ([], None);
  let '(shaps, X_train) := vars in
  shaps ← call (np_array shaps);
  match X_train with
  | None => raise UnboundLocalError
  | Some X_train => call (pd_DataFrame shaps (columns X_train))
  end.
End Engine.

(** ** A small concrete backend, to run the code on examples *)

(** Validity of a fractional test size, as scikit-learn checks it. *)
Definition valid_fraction (v : float) : bool :=
  SFltb (S754_zero false) v && SFltb v (f64_of_Z 1).

(** [seed]-dependent draws among -1, 0 and 1. *)
Definition toy_uniform (seed : Z) (low high : float) (size : nat)
  : PyExc + list float :=
  inr (map (λ k, f64_of_Z ((seed + Z.of_nat k) `mod` 3 - 1)) (seq 0 size)).

(** One validation row, chosen by the seed; the other rows train. *)
Definition toy_split (arr : list nat) (test_size : float) (random_state : Z)
           (stratify : option (list float)) : PyExc + (list nat * list nat) :=
  if valid_fraction test_size && (2 <=? length arr)%nat then
    let k := Z.to_nat (random_state `mod` Z.of_nat (length arr)) in
    inr (firstn k arr ++ skipn (S k) arr, firstn 1 (skipn k arr))
  else inl ValueError.

(** The fit never fails, the attribution of a row is [attribution] applied
    to it, and sums go row after row. *)
Definition toy_backend (attribution : ndarray → ndarray) : Backend := {|
  add_reduce_plan := λ A _, sequential_plan (length (rows A));
  tensorflow_importable := true;
  torch_importable := true;
  RandomState_uniform := toy_uniform;
  train_test_split := toy_split;
  fit_raises := λ _ _ _ _, None;
  TreeExplainer_shap_values := λ _ X, inr (attribution X);
  Linear_shap_values := λ _ _ X, inr (attribution X)
|}.

Definition f64_half : float := S754_finite false 4503599627370496 (-53).
Definition f64_three_halves : float := S754_finite false 6755399441055744 (-52).
(** [2^130], finite in binary64 and above the largest binary32 number. *)
Definition f64_huge : float := S754_finite false 4503599627370496 78.

Definition toy_frame : DataFrame := {|
  columns := ["a"; "b"];
  data := [[f64_of_Z 1; f64_of_Z (-2)];
           [f64_of_Z 3; f64_of_Z 4];
           [f64_of_Z (-5); f64_of_Z 6]]
|}.

Definition toy_labels : list float := [f64_of_Z 0; f64_of_Z 1; f64_of_Z 0].

Definition toy_forest : Estimator := {|
  est_class := [ForestRegressor];
  est_params := {["random_state" := VNone]};
  est_fitted := None
|}.

(** A state with the caller's frame at reference 0 and a forest template
    at reference 0 of the estimators. *)
Definition toy_state : State := {|
  frames := {[0%nat := toy_frame]};
  models := {[0%nat := toy_forest]};
  trace := []
|}.

Definition toy_explainer : EnsembleExplainer.t := {| EnsembleExplainer.model := 0%nat |}.

(** A linear regression: scikit-learn gives it no [random_state]. *)
Definition toy_linear : Estimator := {|
  est_class := [LinearModel];
  est_params := {["fit_intercept" := VBool true]};
  est_fitted := None
|}.

Definition toy_linear_explainer : LinearExplainer.t :=
  {| LinearExplainer.model := 0%nat |}.

(** A frame that already has the reserved column. *)
Definition toy_reserved_frame : DataFrame := {|
  columns := ["a"; "random_uniform_feature"];
  data := [[f64_of_Z 1; f64_of_Z 0]; [f64_of_Z 3; f64_of_Z 1]]
|}.

Definition toy_reserved_state : State := {|
  frames := {[0%nat := toy_reserved_frame]};
  models := {[0%nat := toy_forest]};
  trace := []
|}.

(** Attributions that are all [2^130]. *)
Definition huge_attribution (X : ndarray) : ndarray :=
  {| ncols := ncols X; rows := map (map (λ _, f64_huge)) (rows X) |}.

(** The binary32 numbers 1, 2, 3 and 4. *)
Definition f32_1 : float := S754_finite false 8388608 (-23).
Definition f32_2 : float := S754_finite false 8388608 (-22).
Definition f32_3 : float := S754_finite false 12582912 (-22).
Definition f32_4 : float := S754_finite false 8388608 (-21).

(** The table of two iterations on [toy_frame] from seed 0, when the
    attributions of a row are its features. *)
Definition toy_table : DataFrame := {|
  columns := ["a"; "b"; "random_uniform_feature"];
  data := [[f32_1; f32_2; f32_1]; [f32_3; f32_4; f32_1]]
|}.
(** * Notions used in the statements *)

(** ** Outcomes and states *)

(** [wp m Q s]: the outcome of [m] from [s] satisfies [Q]. *)
Definition wp {St A} (m : Py St A) (Q : PyExc + A → St → Prop) (s : St) : Prop :=
  Q (m s).1 (m s).2.

Definition set_frames (fr : gmap ref DataFrame) (σ : State) : State :=
  {| frames := fr; models := models σ; trace := trace σ |}.

Definition add_event (ev : Event) (σ : State) : State :=
  {| frames := frames σ; models := models σ; trace := trace σ ++ [ev] |}.

(** ** Calls to the explainer in a trace *)

Definition is_fit_call (ev : Event) : bool :=
  match ev with
  | EvFitGetShap _ _ _ _ _ _ => true
  | _ => false
  end.

Definition fit_calls (tr : list Event) : nat :=
  length (List.filter is_fit_call tr).


(** ** Estimators derived from a template *)

(** The estimator which [clone] makes of [t]. *)
Definition unfitted (t : Estimator) : Estimator :=
  {| est_class := est_class t; est_params := est_params t; est_fitted := None |}.

Definition with_param (key : string) (v : PyVal) (t : Estimator) : Estimator :=
  {| est_class := est_class t;
     est_params := <[key := v]> (est_params t);
     est_fitted := est_fitted t |}.

Definition fitted_on (X : ndarray) (y : list float)
           (eval_set : option (ndarray * list float)) (t : Estimator) : Estimator :=
  {| est_class := est_class t;
     est_params := est_params t;
     est_fitted := Some {| fit_X := X; fit_y := y; fit_eval_set := eval_set |} |}.

(** The clone which the linear explainer fits: with the seed as its
    [random_state] when the template has this parameter, as the template
    is otherwise. *)
Definition seeded_clone (seed : Z) (t : Estimator) : Estimator :=
  if decide ("random_state" ∈ dom (est_params t))
  then with_param "random_state" (VInt seed) (unfitted t)
  else unfitted t.

(** [m] is a fitted estimator of the class of [t] whose parameters are those
    of [t] except, at most, for [key]. *)
Definition derived_from (key : string) (t m : Estimator) : Prop :=
  est_class m = est_class t ∧
  is_Some (est_fitted m) ∧
  ∀ k, k ≠ key → est_params m !! k = est_params t !! k.

(** A call of [_fit_get_shap] leaves the estimators that existed before it
    as they were, the template among them, and a call that returns has made
    a new fitted estimator out of the template. *)
Definition fits_a_fresh_model `{ShapExplainer E} (B : Backend) (key : string)
           (self : E) : Prop :=
  ∀ X_train Y_train X_val Y_val seed (h : gmap ref Estimator),
    let out := _fit_get_shap B self X_train Y_train X_val Y_val seed h in
    out.2 !! model self = h !! model self ∧
    (∀ l, is_Some (h !! l) → out.2 !! l = h !! l) ∧
    (∀ A, out.1 = inr A →
          ∃ l m t, h !! model self = Some t ∧ h !! l = None ∧
                   out.2 !! l = Some m ∧ derived_from key t m).

(** The store [h'] has the estimator [m] at a reference which [h] does
    not have. *)
Definition fits_new (h h' : gmap ref Estimator) (m : Estimator) : Prop :=
  ∃ l, h !! l = None ∧ h' !! l = Some m.

(** ** Collaborators that honour their contracts *)

(** The generator gives [n] draws for each effective seed of the run. *)
Definition generator_ok (B : Backend) (seed_start its : Z) (n : nat) : Prop :=
  ∀ i, 0 ≤ i < its →
    ∃ u, RandomState_uniform B (i + seed_start) (f64_of_Z (-1)) (f64_of_Z 1) n
         = inr u ∧ length u = n.

(** The splitter accepts the test size and returns positions of the array
    it was given. *)
Definition splitter_ok (B : Backend) (v : float) (strat : option (list float))
           (its : Z) (n : nat) : Prop :=
  ∀ i, 0 ≤ i < its →
    ∃ tr va, train_test_split B (seq 0 n) v i strat = inr (tr, va) ∧
             Forall (λ k, (k < n)%nat) tr ∧ Forall (λ k, (k < n)%nat) va.

(** The importance vector of one iteration. *)
Definition importance (B : Backend) (A : ndarray) : list float :=
  astype_float32 (np_mean_axis0 (add_reduce_plan B) (np_abs A)).


(** ** Two runs side by side *)

(** The two computations have the same outcome: they return the same value,
    leaving states related by [J], or they raise the same exception. *)
Definition agree {St A} (J : A → St → St → Prop) (m1 m2 : Py St A)
           (s1 s2 : St) : Prop :=
  match m1 s1, m2 s2 with
  | (inr a1, s1'), (inr a2, s2') => a1 = a2 ∧ J a1 s1' s2'
  | (inl e1, _), (inl e2, _) => e1 = e2
  | _, _ => False
  end.

(** The outcome of a call of the explainer is a function of its arguments
    and of the seed, on the stores where [R] holds, and a call that returns
    keeps [R]. *)
Definition explainer_deterministic `{ShapExplainer E} (B : Backend) (self : E)
           (R : gmap ref Estimator → Prop) : Prop :=
  ∀ X_train Y_train X_val Y_val seed h1 h2, R h1 → R h2 →
    let o1 := _fit_get_shap B self X_train Y_train X_val Y_val seed h1 in
    let o2 := _fit_get_shap B self X_train Y_train X_val Y_val seed h2 in
    o1.1 = o2.1 ∧ (∀ A, o1.1 = inr A → R o1.2 ∧ R o2.2).

(** The copies of the two runs hold the same frame and both stores of
    estimators satisfy [R]. *)
Definition same_inputs (R : gmap ref Estimator → Prop) (X1 X2 : ref)
           (σ1 σ2 : State) : Prop :=
  (∃ df, frames σ1 !! X1 = Some df ∧ frames σ2 !! X2 = Some df) ∧
  R (models σ1) ∧ R (models σ2).

(** ** Signs of floating-point numbers *)

(** Neither NaN nor negative: a zero, a positive number or [+inf], with a
    clear sign bit. *)
Definition sign_clear (x : float) : Prop :=
  match x with
  | S754_zero s | S754_infinity s | S754_finite s _ _ => s = false
  | S754_nan => False
  end.

(** What rounding gives for the sign [sx]. *)
Definition has_sign (sx : bool) (x : float) : Prop :=
  match x with
  | S754_zero s | S754_infinity s | S754_finite s _ _ => s = sx
  | S754_nan => False
  end.

(** The attribution matrices of the calls that returned, in call order. *)
Definition attributions (tr : list Event) : list ndarray :=
  omap (λ ev, match ev with
              | EvFitGetShap _ _ _ _ _ (inr A) => Some A
              | _ => None
              end) tr.

Definition uniform_seeds (tr : list Event) : list Z :=
  omap (λ ev, match ev with EvUniform seed _ => Some seed | _ => None end) tr.

Definition split_seeds (tr : list Event) : list Z :=
  omap (λ ev, match ev with EvSplit _ _ seed _ => Some seed | _ => None end) tr.

Definition fit_seeds (tr : list Event) : list Z :=
  omap (λ ev, match ev with
              | EvFitGetShap _ _ _ _ seed _ => Some seed
              | _ => None
              end) tr.

(** The training and validation matrices handed to the explainer. *)
Definition fit_inputs (tr : list Event) : list (ndarray * ndarray) :=
  omap (λ ev, match ev with
              | EvFitGetShap X_train _ X_val _ _ _ => Some (X_train, X_val)
              | _ => None
              end) tr.

(** A matrix of finite numbers with at least one row (and a row count that
    binary64 represents exactly). *)
Definition finite_matrix (A : ndarray) : Prop :=
  (0 < length (rows A))%nat ∧
  Z.of_nat (length (rows A)) < 2 ^ 53 ∧
  Forall (Forall (λ x, isfinite x = true)) (rows A).

(** What the trace and the accumulated importances are after [j] iterations
    of a run started at [σ0] with [random_seed_start = s]. *)
Definition trace_inv (B : Backend) (σ0 : State) (s : Z) (j : nat)
           (vars : list (list float) * option DataFrame) (σ : State) : Prop :=
  ∃ tr, trace σ = trace σ0 ++ tr ∧
        vars.1 = map (importance B) (attributions tr) ∧
        uniform_seeds tr = map (λ i, i + s) (seqZ 0 (Z.of_nat j)) ∧
        split_seeds tr = seqZ 0 (Z.of_nat j) ∧
        fit_seeds tr = map (λ i, i + s) (seqZ 0 (Z.of_nat j)).

(** What a call of [EnsembleExplainer._fit_get_shap] returns or raises when
    its template is [t]. *)
Definition ensemble_result (B : Backend) (t : Estimator)
           (X_train : ndarray) (Y_train : list float) (X_val : ndarray)
           (seed : Z) : PyExc + ndarray :=
  if decide ("random_state" ∈ dom (est_params t)) then
    let c := with_param "random_state" (VInt seed) (unfitted t) in
    match fit_raises B c X_train Y_train None with
    | Some e => inl e
    | None => TreeExplainer_shap_values B (fitted_on X_train Y_train None c) X_val
    end
  else inl ValueError.

(** ** Failing before the loop *)

(** The run raised and called none of the collaborators: no synthetic
    feature was drawn, nothing was split, no explainer was called. *)
Definition fails_before_first_iteration (σ : State)
           (out : (PyExc + DataFrame) * State) : Prop :=
  (∃ e, out.1 = inl e) ∧ trace out.2 = trace σ.

Definition all_finite (A : ndarray) : Prop :=
  Forall (Forall (λ x, isfinite x = true)) (rows A).

(** * Further notions: frames, calls and outcomes of the explainers *)

(** Every row has one cell per column label. *)
Definition well_formed (df : DataFrame) : Prop :=
  Forall (λ r, length r = length (columns df)) (data df).

(** The frame [df] with the values [u] as its last column, under the
    reserved name. *)
Definition with_feature (df : DataFrame) (u : list float) : DataFrame :=
  {| columns := columns df ++ ["random_uniform_feature"];
     data := zip_with (λ row x, row ++ [x]) (data df) u |}.

(** [evs] are the three calls of iteration [i] of a run on the frame [df]:
    the draw with the seed [i + s], the split with the seed [i], and the
    call of the explainer on the rows of [df], extended by this draw, which
    this split selects. *)
Definition iteration_calls (B : Backend) (df : DataFrame) (y : list float)
           (v : float) (strat : option (list float)) (s i : Z)
           (evs : list Event) : Prop :=
  ∃ u tr va Xt Xv Yt Yv A,
    RandomState_uniform B (i + s) (f64_of_Z (-1)) (f64_of_Z 1) (len df) = inr u ∧
    length u = len df ∧
    train_test_split B (seq 0 (len df)) v i strat = inr (tr, va) ∧
    iloc (with_feature df u) tr = inr Xt ∧
    iloc (with_feature df u) va = inr Xv ∧
    take y tr = inr Yt ∧
    take y va = inr Yv ∧
    evs = [EvUniform (i + s) (len df);
           EvSplit (seq 0 (len df)) v i strat;
           EvFitGetShap (values Xt) Yt (values Xv) Yv (i + s) (inr A)].

(** What the frames and the trace are after [j] iterations of a run started
    in [σ0] on the frame [df], the copy being at [X']: the copy is [df] with
    the draw of the last iteration. *)
Definition calls_inv (B : Backend) (σ0 : State) (X' : ref) (df : DataFrame)
           (y : list float) (v : float) (strat : option (list float)) (s : Z)
           (j : nat) (σ : State) : Prop :=
  (∃ calls, trace σ = trace σ0 ++ concat calls ∧
            Forall2 (iteration_calls B df y v strat s)
                    (seqZ 0 (Z.of_nat j)) calls) ∧
  ∃ df', frames σ = <[X' := df']> (frames σ0) ∧
         match j with
         | O => df' = df
         | S j' =>
             ∃ u, RandomState_uniform B (Z.of_nat j' + s) (f64_of_Z (-1))
                                      (f64_of_Z 1) (len df) = inr u ∧
                  length u = len df ∧ df' = with_feature df u
         end.

(** The exception of a call of the explainer that raised. *)
Definition failed_call (ev : Event) : option PyExc :=
  match ev with
  | EvFitGetShap _ _ _ _ _ (inl e) => Some e
  | _ => None
  end.

(** A run with the explainer [self] leaves the estimators that existed
    before it as they were. *)
Definition estimators_kept `{ShapExplainer E} (B : Backend) (self : E) : Prop :=
  ∀ X y its v strat s σ l,
    is_Some (models σ !! l) →
    models (explain B self X y its v strat s σ).2 !! l = models σ !! l.

(** Two runs with the explainer [self] on the same frame contents, with the
    same template at [self.model], have the same outcome. *)
Definition run_deterministic `{ShapExplainer E} (B : Backend) (self : E) : Prop :=
  ∀ X1 X2 y its v strat s σ1 σ2 df t,
    frames σ1 !! X1 = Some df →
    frames σ2 !! X2 = Some df →
    models σ1 !! model self = Some t →
    models σ2 !! model self = Some t →
    (explain B self X1 y its v strat s σ1).1
    = (explain B self X2 y its v strat s σ2).1.

(** What a call of [CatboostExplainer._fit_get_shap] returns or raises when
    its template is [t]: the copy keeps what the template had learnt, gets
    the seed as [random_seed] and is fitted with the validation data as
    [eval_set]. *)
Definition catboost_result (B : Backend) (t : Estimator)
           (X_train : ndarray) (Y_train : list float)
           (X_val : ndarray) (Y_val : list float) (seed : Z) : PyExc + ndarray :=
  let c := with_param "random_seed" (VInt seed) t in
  match fit_raises B c X_train Y_train (Some (X_val, Y_val)) with
  | Some e => inl e
  | None =>
      TreeExplainer_shap_values
        B (fitted_on X_train Y_train (Some (X_val, Y_val)) c) X_val
  end.

(** What a call of [LinearExplainer._fit_get_shap] returns or raises when
    its template is [t]. *)
Definition linear_result (B : Backend) (t : Estimator)
           (X_train : ndarray) (Y_train : list float) (X_val : ndarray)
           (seed : Z) : PyExc + ndarray :=
  let c := seeded_clone seed t in
  match fit_raises B c X_train Y_train None with
  | Some e => inl e
  | None =>
      Linear_shap_values B (fitted_on X_train Y_train None c) X_train X_val
  end.

(** Every call of the explainer returns a matrix with [w] columns. *)
Definition explainer_returns_width `{ShapExplainer E} (B : Backend) (self : E)
           (R : gmap ref Estimator → Prop) (w : nat) : Prop :=
  ∀ X_train Y_train X_val Y_val seed h, R h →
    ∃ A h', _fit_get_shap B self X_train Y_train X_val Y_val seed h = (inr A, h') ∧
            R h' ∧ ncols A = w.

(** After [j] iterations, on a frame with [n] rows and the labels [cols],
    with an explainer that returns [w] columns. *)
Definition width_inv (R : gmap ref Estimator → Prop) (σ0 : State) (X' : ref)
           (n : nat) (cols : list string) (w : nat) (j : nat)
           (vars : list (list float) * option DataFrame) (σ : State) : Prop :=
  R (models σ) ∧
  (∃ df', frames σ !! X' = Some df' ∧ len df' = n ∧
          (columns df' = cols ∨ columns df' = cols ++ ["random_uniform_feature"])) ∧
  length vars.1 = j ∧
  Forall (λ r, length r = w) vars.1 ∧
  fit_calls (trace σ) = (fit_calls (trace σ0) + j)%nat ∧
  (j ≠ 0%nat → ∃ xt, vars.2 = Some xt ∧
                     columns xt = cols ++ ["random_uniform_feature"]).

(** ** More concrete data *)

(** Labels for the first row only. *)
Definition toy_short_labels : list float := [f64_of_Z 0].

(** Attributions for the first two columns only. *)
Definition two_column_attribution (X : ndarray) : ndarray :=
  {| ncols := 2; rows := map (firstn 2) (rows X) |}.

Definition toy_catboost : Estimator := {|
  est_class := [CatBoostRegressor];
  est_params := {["iterations" := VInt 10]};
  est_fitted := None
|}.

Definition toy_catboost_explainer : CatboostExplainer.t :=
  {| CatboostExplainer.model := 0%nat |}.

(** A forest-like template written without a [random_state] parameter. *)
Definition toy_seedless_forest : Estimator := {|
  est_class := [ForestRegressor];
  est_params := {["n_estimators" := VInt 10]};
  est_fitted := None
|}.

Definition toy_keras : Estimator := {|
  est_class := [KerasModel];
  est_params := ∅;
  est_fitted := None
|}.

Definition toy_deep_explainer : DeepLearningExplainer.t :=
  {| DeepLearningExplainer.model := 0%nat |}.

Definition toy_deep_state : State := {|
  frames := {[0%nat := toy_frame]};
  models := {[0%nat := toy_keras]};
  trace := []
|}.

(** ** Calls of the explainer that returned a matrix of a given width *)


(** numpy adds every row of a column once, in whatever order. *)
Definition reduces_all_rows (B : Backend) : Prop :=
  ∀ A j, plan_rows (add_reduce_plan B A j) ≡ₚ seq 0 (length (rows A)).

(** ** A backend with two validation rows *)

(** One training row, chosen by the seed; the other rows validate. *)
Definition toy_wide_split (arr : list nat) (test_size : float) (random_state : Z)
           (stratify : option (list float)) : PyExc + (list nat * list nat) :=
  if valid_fraction test_size && (2 <=? length arr)%nat then
    let k := Z.to_nat (random_state `mod` Z.of_nat (length arr)) in
    inr (firstn 1 (skipn k arr), firstn k arr ++ skipn (S k) arr)
  else inl ValueError.

Definition toy_wide_backend (attribution : ndarray → ndarray) : Backend := {|
  add_reduce_plan := λ A _, sequential_plan (length (rows A));
  tensorflow_importable := true;
  torch_importable := true;
  RandomState_uniform := toy_uniform;
  train_test_split := toy_wide_split;
  fit_raises := λ _ _ _ _, None;
  TreeExplainer_shap_values := λ _ X, inr (attribution X);
  Linear_shap_values := λ _ _ X, inr (attribution X)
|}.

(** The binary32 numbers 5 and 1/2. *)
Definition f32_5 : float := S754_finite false 10485760 (-21).
Definition f32_half : float := S754_finite false 8388608 (-24).

(** The table of two iterations on [toy_frame] from seed 0 with two
    validation rows, when the attributions of a row are its features: the
    means of |3| and |-5|, of |4| and |6|, of |0| and |1|, then of |1| and
    |-5|, of |-2| and |6|, of |0| and |-1|. *)
Definition toy_wide_table : DataFrame := {|
  columns := ["a"; "b"; "random_uniform_feature"];
  data := [[f32_4; f32_5; f32_half]; [f32_3; f32_4; f32_half]]
|}.

(** A column of eight rows on which the order of the additions shows:
    8, 2^-21 and six times 2^-51. *)
Definition order_sensitive_column : ndarray := {|
  ncols := 1;
  rows := [[S754_finite false 4503599627370496 (-49)];
           [S754_finite false 4503599627370496 (-73)];
           [S754_finite false 4503599627370496 (-103)];
           [S754_finite false 4503599627370496 (-103)];
           [S754_finite false 4503599627370496 (-103)];
           [S754_finite false 4503599627370496 (-103)];
           [S754_finite false 4503599627370496 (-103)];
           [S754_finite false 4503599627370496 (-103)]]
|}.

(** [1 + 2^-23], the binary32 number after 1. *)
Definition f32_after_1 : float := S754_finite false 8388609 (-23).
(** * Reasoning about computations *)

Section Wp.
Context {St : Type}.
Implicit Types s : St.

Lemma wp_ret {A} (a : A) (Q : PyExc + A → St → Prop) s :
  Q (inr a) s → wp (mret a) Q s.
Proof. done. Qed.

Lemma wp_raise {A} e (Q : PyExc + A → St → Prop) s :
  Q (inl e) s → wp (raise e) Q s.
Proof. done. Qed.

Lemma wp_call {A} (r : PyExc + A) (Q : PyExc + A → St → Prop) s :
  Q r s → wp (call r) Q s.
Proof. done. Qed.

Lemma wp_step {A} (f : St → (PyExc + A) * St) (Q : PyExc + A → St → Prop) s :
  Q (f s).1 (f s).2 → wp (step f) Q s.
Proof. done. Qed.

Lemma wp_bind {A C} (m : Py St A) (f : A → Py St C) (Q : PyExc + C → St → Prop) s :
  wp m (λ r s', match r with
                | inl e => Q (inl e) s'
                | inr a => wp (f a) Q s'
                end) s →
  wp (m ≫= f) Q s.
Proof.
  unfold wp, mbind, Py_bind. destruct (m s) as [[e|a] s']; done.
Qed.

Lemma bind_inr {A C} (m : Py St A) (f : A → Py St C) s a s' :
  m s = (inr a, s') → (m ≫= f) s = f a s'.
Proof. intros Hm. unfold mbind, Py_bind. by rewrite Hm. Qed.

Lemma bind_inl {A C} (m : Py St A) (f : A → Py St C) s e s' :
  m s = (inl e, s') → (m ≫= f) s = (inl e, s').
Proof. intros Hm. unfold mbind, Py_bind. by rewrite Hm. Qed.

Lemma wp_mono {A} (m : Py St A) (Q Q' : PyExc + A → St → Prop) s :
  (∀ r s', Q r s' → Q' r s') → wp m Q s → wp m Q' s.
Proof. unfold wp. auto. Qed.

Lemma wp_assert (b : bool) (Q : PyExc + unit → St → Prop) s :
  (if b then Q (inr tt) s else Q (inl AssertionError) s) → wp (py_assert b) Q s.
Proof. by destruct b. Qed.

(** The loop rule: [I j a] holds of the loop variables before the
    iteration on the [j]-th element. *)
Lemma wp_for_each {A C} (f : A → C → Py St A) (I : nat → A → St → Prop)
      (Q : PyExc + A → St → Prop) l a s :
  I 0%nat a s →
  (∀ j c a s, l !! j = Some c → I j a s →
     wp (f a c) (λ r s', match r with
                         | inl e => Q (inl e) s'
                         | inr a' => I (S j) a' s'
                         end) s) →
  (∀ a s, I (length l) a s → Q (inr a) s) →
  wp (for_each f l a) Q s.
Proof.
  revert I a s. induction l as [|c l IH]; intros I a s H0 Hstep Hend.
  - apply wp_ret, Hend, H0.
  - simpl. apply wp_bind.
    eapply wp_mono; [|apply (Hstep 0%nat c a s eq_refl H0)].
    intros [e|a'] s' Hr; [done|].
    apply (IH (λ j, I (S j))); [done| |done].
    intros j c' a'' s'' Hj. apply (Hstep (S j)). done.
Qed.
End Wp.

(** ** The primitive steps of the engine *)

Section EngineSteps.
Context (B : Backend) `{ShapExplainer E}.
Implicit Types (σ : State) (X : ref).

Lemma wp_get_frame {X} (Q : PyExc + DataFrame → State → Prop) σ :
  match frames σ !! X with
  | Some df => Q (inr df) σ
  | None => Q (inl ReferenceError) σ
  end →
  wp (get_frame X) Q σ.
Proof. unfold wp, get_frame, step. by destruct (frames σ !! X). Qed.

Lemma wp_uniform seed size (Q : PyExc + list float → State → Prop) σ :
  Q (RandomState_uniform B seed (f64_of_Z (-1)) (f64_of_Z 1) size)
    (add_event (EvUniform seed size) σ) →
  wp (uniform B seed size) Q σ.
Proof. done. Qed.

Lemma wp_split arr v seed strat (Q : PyExc + (list nat * list nat) → State → Prop) σ :
  Q (train_test_split B arr v seed strat) (add_event (EvSplit arr v seed strat) σ) →
  wp (split B arr v seed strat) Q σ.
Proof. done. Qed.

Lemma wp_fit_get_shap (self : E) Xt Yt Xv Yv seed
      (Q : PyExc + ndarray → State → Prop) σ :
  (∀ r h, _fit_get_shap B self Xt Yt Xv Yv seed (models σ) = (r, h) →
          Q r {| frames := frames σ; models := h;
                 trace := trace σ ++ [EvFitGetShap Xt Yt Xv Yv seed r] |}) →
  wp (fit_get_shap B self Xt Yt Xv Yv seed) Q σ.
Proof.
  intros HQ. unfold wp, fit_get_shap, step.
  destruct (_fit_get_shap B self Xt Yt Xv Yv seed (models σ)) as [r h] eqn:Hc.
  by apply HQ.
Qed.

Lemma wp_frame_setitem X name v df (Q : PyExc + unit → State → Prop) σ :
  frames σ !! X = Some df →
  match setitem df name v with
  | inl e => Q (inl e) σ
  | inr df' => Q (inr tt) (set_frames (<[X := df']> (frames σ)) σ)
  end →
  wp (frame_setitem X name v) Q σ.
Proof.
  intros HX HQ. unfold frame_setitem. apply wp_bind, wp_get_frame. rewrite HX.
  apply wp_bind, wp_call. by destruct (setitem df name v).
Qed.

Lemma wp_copy_deep X (Q : PyExc + ref → State → Prop) σ :
  match frames σ !! X with
  | Some df =>
      Q (inr (fresh (dom (frames σ))))
        (set_frames (<[fresh (dom (frames σ)) := df]> (frames σ)) σ)
  | None => Q (inl ReferenceError) σ
  end →
  wp (copy_deep X) Q σ.
Proof.
  intros HQ. unfold copy_deep. apply wp_bind, wp_get_frame.
  by destruct (frames σ !! X).
Qed.
End EngineSteps.


(** * Signs through the floating-point operations *)

Section Rounding.
Context (prec emax : Z).

Lemma shr_1_nonneg mrs : 0 ≤ shr_m mrs → 0 ≤ shr_m (shr_1 mrs).
Proof.
  destruct mrs as [m r s]. simpl.
  destruct m as [|p|p]; [done| |]; destruct p; simpl; lia.
Qed.

Lemma iter_pos_shr_1_nonneg p mrs :
  0 ≤ shr_m mrs → 0 ≤ shr_m (SpecFloat.iter_pos shr_1 p mrs).
Proof.
  revert mrs. induction p as [p IH|p IH|]; intros mrs Hm; simpl.
  - by apply IH, IH, shr_1_nonneg.
  - by apply IH, IH.
  - by apply shr_1_nonneg.
Qed.

Lemma shr_m_record_of_loc m l : shr_m (shr_record_of_loc m l) = m.
Proof. by destruct l as [|[]]. Qed.

Lemma shr_fexp_nonneg m e l :
  0 ≤ m → 0 ≤ shr_m (shr_fexp prec emax m e l).1.
Proof.
  intros Hm. unfold shr_fexp, shr.
  destruct (_ - e) as [|p|p]; simpl; rewrite ?shr_m_record_of_loc; try done.
  apply iter_pos_shr_1_nonneg. by rewrite shr_m_record_of_loc.
Qed.

Lemma round_nearest_even_nonneg m l : 0 ≤ m → 0 ≤ round_nearest_even m l.
Proof.
  intros Hm. unfold round_nearest_even.
  destruct l as [|[]]; try done; [destruct (Z.even m)|]; lia.
Qed.

(** Rounding a non-negative mantissa gives a number of the requested sign,
    never NaN. *)
Lemma binary_round_aux_sign sx mx ex lx :
  0 ≤ mx → has_sign sx (binary_round_aux prec emax sx mx ex lx).
Proof.
  intros Hm. unfold binary_round_aux.
  pose proof (shr_fexp_nonneg mx ex lx Hm) as H1.
  destruct (shr_fexp prec emax mx ex lx) as [mrs' e']. simpl in H1.
  pose proof (shr_fexp_nonneg _ e' loc_Exact
                (round_nearest_even_nonneg _ (loc_of_shr_record mrs') H1)) as H2.
  destruct (shr_fexp prec emax _ e' loc_Exact) as [mrs'' e'']. simpl in H2.
  destruct (shr_m mrs'') as [|p|p]; [done| |lia].
  by destruct (e'' <=? emax - prec).
Qed.

Lemma binary_round_sign sx mx ex :
  has_sign sx (binary_round prec emax sx mx ex).
Proof.
  unfold binary_round. destruct (shl_align mx ex _) as [mz ez].
  by apply binary_round_aux_sign.
Qed.
End Rounding.

Lemma sign_clear_abs x : isnan x = false → sign_clear (SFabs x).
Proof. by destruct x. Qed.

Lemma sign_clear_add x y :
  sign_clear x → sign_clear y → sign_clear (f64_add x y).
Proof.
  unfold f64_add.
  destruct x as [sx|sx| |sx mx ex], y as [sy|sy| |sy my ey]; simpl;
    try done; try (by intros -> ->).
  intros -> ->. simpl. apply (binary_round_sign 53 1024 false).
Qed.

(** Whatever the order and the grouping of the additions. *)
Lemma sign_clear_plan_sum p l : Forall sign_clear l → sign_clear (plan_sum p l).
Proof.
  intros Hl. induction p as [|i|p1 IH1 p2 IH2]; simpl.
  - done.
  - destruct (nth_in_or_default i l (S754_zero false)) as [Hin| ->]; [|done].
    rewrite Forall_forall in Hl. by apply Hl, list_elem_of_In.
  - by apply sign_clear_add.
Qed.

Lemma sign_clear_to_f32 x : sign_clear x → sign_clear (f64_to_f32 x).
Proof.
  destruct x as [s|s| |s m e]; try done. simpl. intros ->.
  apply (binary_round_sign 24 128 false).
Qed.

Lemma sign_clear_ge0 x : sign_clear x → ge0 x = true.
Proof. by destruct x as [s|s| |s m e]; try done; intros ->. Qed.

Lemma sign_clear_div x m e :
  sign_clear x → sign_clear (f64_div x (S754_finite false m e)).
Proof.
  unfold f64_div. destruct x as [s|s| |s mx ex]; try done; simpl;
    try (by intros ->).
  intros ->. simpl.
  destruct (SFdiv_core_binary 53 1024 (Z.pos mx) ex (Z.pos m) e)
    as [[mz ez] lz] eqn:Hcore.
  apply (binary_round_aux_sign 53 1024 false).
  unfold SFdiv_core_binary in Hcore.
  set (m' := match _ - _ - _ with Z0 => _ | Z.pos _ => _ | Z.neg _ => _ end)
    in Hcore.
  assert (0 ≤ m') as Hm'.
  { unfold m'. destruct (_ - _ - _); [lia| |lia].
    apply Z.shiftl_nonneg. lia. }
  pose proof (Z_div_mod m' (Z.pos m) ltac:(lia)) as Hdiv.
  destruct (Z.div_eucl m' (Z.pos m)) as [q r]. injection Hcore as <- _ _.
  destruct Hdiv as [Hq Hr]. nia.
Qed.

(** ** Row counts are converted exactly *)

Lemma digits2_pos_bounds p :
  2 ^ (Z.pos (digits2_pos p) - 1) ≤ Z.pos p < 2 ^ Z.pos (digits2_pos p).
Proof.
  induction p as [p IH|p IH|]; simpl digits2_pos; [| |done].
  - rewrite Pos2Z.inj_succ.
    replace (Z.succ (Z.pos (digits2_pos p)) - 1)
      with (Z.succ (Z.pos (digits2_pos p) - 1)) by lia.
    rewrite !Z.pow_succ_r by lia. lia.
  - rewrite Pos2Z.inj_succ.
    replace (Z.succ (Z.pos (digits2_pos p)) - 1)
      with (Z.succ (Z.pos (digits2_pos p) - 1)) by lia.
    rewrite !Z.pow_succ_r by lia. lia.
Qed.

Lemma digits2_pos_iter_xO p k :
  Z.pos (digits2_pos (Pos.iter xO p k)) = Z.pos (digits2_pos p) + Z.pos k.
Proof.
  induction k as [|k IH] using Pos.peano_ind.
  - simpl. lia.
  - rewrite Pos.iter_succ. simpl digits2_pos. lia.
Qed.

(** A mantissa of 53 bits with an exponent in range is a binary64 number
    already. *)
Lemma binary_round_aux_exact s m e :
  Z.pos (digits2_pos m) = 53 →
  -1074 ≤ e ≤ 971 →
  binary_round_aux 53 1024 s (Z.pos m) e loc_Exact = S754_finite s m e.
Proof.
  intros Hd He. unfold binary_round_aux, shr_fexp. simpl Zdigits2.
  assert (fexp 53 1024 (Z.pos (digits2_pos m) + e) - e = 0) as ->.
  { rewrite Hd. unfold fexp, emin. lia. }
  simpl. assert (fexp 53 1024 (Z.pos (digits2_pos m) + e) - e = 0) as ->.
  { rewrite Hd. unfold fexp, emin. lia. }
  simpl. replace (e <=? 1024 - 53) with true; [done|].
  symmetry. apply Z.leb_le. lia.
Qed.

Lemma f64_of_Z_finite n :
  0 < n < 2 ^ 53 → ∃ m e, f64_of_Z n = S754_finite false m e.
Proof.
  intros Hn. destruct n as [|p|p]; [lia| |lia].
  unfold f64_of_Z, binary_normalize, binary_round.
  pose proof (digits2_pos_bounds p) as [Hlo Hhi].
  assert (1 ≤ Z.pos (digits2_pos p) ≤ 53) as Hd.
  { split; [lia|].
    destruct (Z.le_gt_cases (Z.pos (digits2_pos p)) 53) as [|Hgt]; [done|].
    assert (2 ^ 53 ≤ 2 ^ (Z.pos (digits2_pos p) - 1))
      by (apply Z.pow_le_mono_r; lia). lia. }
  assert (fexp 53 1024 (Z.pos (digits2_pos p) + 0) = Z.pos (digits2_pos p) - 53)
    as -> by (unfold fexp, emin; lia).
  unfold shl_align.
  destruct (Z.pos (digits2_pos p) - 53 - 0) as [|k|k] eqn:Hk.
  - eexists _, _. apply binary_round_aux_exact; lia.
  - lia.
  - eexists _, _. apply binary_round_aux_exact; [|lia].
    rewrite digits2_pos_iter_xO. lia.
Qed.

(** ** Plans of summation *)

Lemma sequential_plan_rows n : plan_rows (sequential_plan n) = seq 0 n.
Proof.
  induction n as [|n IH]; [done|]. simpl plan_rows. rewrite IH.
  symmetry. apply seq_S.
Qed.

(** On one and the same column the two plans, which both add every row
    once, give different means: 1 when the rows are added one after the
    other, the binary32 number after 1 when they are added in eight
    lanes. *)
Lemma mean_depends_on_plan :
  plan_rows (sequential_plan 8) ≡ₚ seq 0 8 ∧
  plan_rows eight_lane_plan ≡ₚ seq 0 8 ∧
  astype_float32 (np_mean_axis0 (λ _ _, sequential_plan 8) order_sensitive_column)
  = [S754_finite false 8388608 (-23)] ∧
  astype_float32 (np_mean_axis0 (λ _ _, eight_lane_plan) order_sensitive_column)
  = [f32_after_1].
Proof. by vm_compute. Qed.

(** ** The importance of a matrix without NaN *)

Lemma sign_clear_importance B A :
  finite_matrix A → Forall sign_clear (importance B A).
Proof.
  intros (Hrows & Hsmall & Hfin).
  destruct (f64_of_Z_finite (Z.of_nat (length (rows A)))) as (m & e & Hn); [lia|].
  unfold importance, astype_float32, np_mean_axis0.
  rewrite Forall_map, Forall_map. apply Forall_forall. intros j _.
  simpl. rewrite length_map, Hn.
  apply sign_clear_to_f32, sign_clear_div, sign_clear_plan_sum.
  unfold column. simpl. rewrite Forall_map, Forall_map.
  eapply Forall_impl; [exact Hfin|]. intros r Hr. simpl.
  change (S754_zero false) with (SFabs (S754_zero false)). rewrite map_nth.
  apply sign_clear_abs.
  destruct (nth_in_or_default j r (S754_zero false)) as [Hin| ->]; [|done].
  rewrite Forall_forall in Hr. apply list_elem_of_In, Hr in Hin.
  by destruct (nth j r (S754_zero false)).
Qed.
(** * The caller's frame *)

Section Frame.
Context (B : Backend) `{ShapExplainer E}.

(** One iteration on the copy [X'] leaves every other frame alone. *)
Lemma explain_body_frame (self : E) X' y v strat s vars i (X : ref) σ :
  X ≠ X' →
  wp (explain_body B self X' y v strat s vars i)
     (λ _ σ', frames σ' !! X = frames σ !! X) σ.
Proof.
  intros Hne. unfold explain_body.
  apply wp_bind, wp_get_frame. destruct (frames σ !! X') as [df|] eqn:HX'; [|done].
  apply wp_bind, wp_uniform.
  destruct (RandomState_uniform _ _ _ _ _) as [e|u]; [done|].
  apply wp_bind. eapply wp_frame_setitem; [exact HX'|].
  destruct (setitem df _ u) as [e|df']; [done|].
  apply wp_bind, wp_get_frame. simpl. rewrite lookup_insert_eq.
  apply wp_bind, wp_split.
  destruct (train_test_split _ _ _ _ _) as [e|[tr va]]; simpl;
    [by rewrite lookup_insert_ne|].
  apply wp_bind, wp_get_frame. simpl. rewrite lookup_insert_eq.
  apply wp_bind, wp_call. destruct (iloc df' tr) as [e|Xt]; simpl;
    [by rewrite lookup_insert_ne|].
  apply wp_bind, wp_call. destruct (iloc df' va) as [e|Xv]; simpl;
    [by rewrite lookup_insert_ne|].
  apply wp_bind, wp_call. destruct (take y tr) as [e|Yt]; simpl;
    [by rewrite lookup_insert_ne|].
  apply wp_bind, wp_call. destruct (take y va) as [e|Yv]; simpl;
    [by rewrite lookup_insert_ne|].
  apply wp_bind, wp_fit_get_shap. intros [e|A] h _; simpl;
    [by rewrite lookup_insert_ne|].
  apply wp_ret. simpl. by rewrite lookup_insert_ne.
Qed.

(** C5. [explain] never changes the frame object which the caller passed:
    after the call, whether it returned or raised, the store holds at the
    caller's reference what it held before; and when the call returned, that
    frame has no column with the reserved name (the synthetic column was
    written to the copy only). *)
Theorem explain_keeps_caller_frame (self : E) X y its v strat s σ :
let out := explain B self X y its v strat s σ in
frames out.2 !! X = frames σ !! X ∧
(∀ T, out.1 = inr T →
      ∃ df, frames out.2 !! X = Some df ∧ random_col_name ∉ columns df).
Proof.
cbv zeta.
change (wp (explain B self X y its v strat s)
           (λ r σ', frames σ' !! X = frames σ !! X ∧
                    (∀ T, r = inr T → ∃ df, frames σ' !! X = Some df ∧
                                           random_col_name ∉ columns df)) σ).
unfold explain.
apply wp_bind, wp_get_frame. destruct (frames σ !! X) as [df|] eqn:HX; [|done].
apply wp_bind, wp_assert. case_bool_decide as Hcol; simpl; [done|].
apply wp_bind, wp_copy_deep. rewrite HX.
set (X' := fresh (dom (frames σ))).
assert (X ≠ X') as Hne.
{ intros ->. apply (is_fresh (dom (frames σ))). apply elem_of_dom. eauto. }
apply wp_bind.
apply (wp_for_each _ (λ _ _ σ', frames σ' !! X = Some df)).
- simpl. by rewrite lookup_insert_ne.
- intros j i vars σ1 _ HI. eapply wp_mono; [|by apply explain_body_frame].
  intros [e|a] σ2 Heq; rewrite Heq, HI; done.
- intros [shaps Xt] σ1 HI.
  apply wp_bind, wp_call.
  destruct (np_array shaps) as [e|sh]; [done|].
  destruct Xt as [Xt|]; [|done].
  apply wp_call. split; [done|]. intros _ _. by exists df.
Qed.
End Frame.

(** * Arguments that are refused *)

Section Preconditions.
Context (B : Backend) `{ShapExplainer E}.

Lemma explain_reserved_name (self : E) X y its v strat s σ df :
  frames σ !! X = Some df →
  random_col_name ∈ columns df →
  explain B self X y its v strat s σ = (inl AssertionError, σ).
Proof.
  intros HX Hin. unfold explain, mbind, Py_bind, get_frame, step.
  rewrite HX. by rewrite bool_decide_true.
Qed.

(** C4. When the caller's frame already has a column named
    [random_uniform_feature], [explain] raises [AssertionError] at once: the
    state is left as it was, so that nothing was drawn or split and the
    explainer was never called. *)
Theorem reserved_name_fails_fast (self : E) X y its v strat s σ df :
  frames σ !! X = Some df →
  random_col_name ∈ columns df →
  let out := explain B self X y its v strat s σ in
  out.1 = inl AssertionError ∧
  out.2 = σ ∧
  fit_calls (trace out.2) = fit_calls (trace σ).
Proof.
  intros HX Hin. cbv zeta.
  by rewrite (explain_reserved_name self X y its v strat s σ df).
Qed.

End Preconditions.


(** * The explainer classes *)

Section ModelSteps.
Context (B : Backend).
Implicit Types (h : gmap ref Estimator) (m : ref).

Lemma wp_get_model m (Q : PyExc + Estimator → gmap ref Estimator → Prop) h :
  match h !! m with
  | Some e => Q (inr e) h
  | None => Q (inl ReferenceError) h
  end →
  wp (get_model m) Q h.
Proof. unfold wp, get_model, step. by destruct (h !! m). Qed.

Lemma wp_clone m (Q : PyExc + ref → gmap ref Estimator → Prop) h :
  match h !! m with
  | Some e => Q (inr (fresh (dom h))) (<[fresh (dom h) := unfitted e]> h)
  | None => Q (inl ReferenceError) h
  end →
  wp (clone m) Q h.
Proof.
  intros HQ. unfold clone. apply wp_bind, wp_get_model. by destruct (h !! m).
Qed.

Lemma wp_catboost_copy m (Q : PyExc + ref → gmap ref Estimator → Prop) h :
  match h !! m with
  | Some e => Q (inr (fresh (dom h))) (<[fresh (dom h) := e]> h)
  | None => Q (inl ReferenceError) h
  end →
  wp (catboost_copy m) Q h.
Proof.
  intros HQ. unfold catboost_copy. apply wp_bind, wp_get_model.
  by destruct (h !! m).
Qed.

Lemma wp_sklearn_set_params m key v e
      (Q : PyExc + ref → gmap ref Estimator → Prop) h :
  h !! m = Some e →
  (if decide (key ∈ dom (est_params e))
   then Q (inr m) (<[m := with_param key v e]> h)
   else Q (inl ValueError) h) →
  wp (sklearn_set_params m key v) Q h.
Proof.
  intros Hm HQ. unfold sklearn_set_params. apply wp_bind, wp_get_model.
  rewrite Hm. by destruct (decide _).
Qed.

Lemma wp_catboost_set_params m key v e
      (Q : PyExc + ref → gmap ref Estimator → Prop) h :
  h !! m = Some e →
  Q (inr m) (<[m := with_param key v e]> h) →
  wp (catboost_set_params m key v) Q h.
Proof.
  intros Hm HQ. unfold catboost_set_params. apply wp_bind, wp_get_model.
  by rewrite Hm.
Qed.

Lemma wp_model_fit m X y ev e (Q : PyExc + unit → gmap ref Estimator → Prop) h :
  h !! m = Some e →
  match fit_raises B e X y ev with
  | Some exc => Q (inl exc) h
  | None => Q (inr tt) (<[m := fitted_on X y ev e]> h)
  end →
  wp (model_fit B m X y ev) Q h.
Proof.
  intros Hm HQ. unfold model_fit. apply wp_bind, wp_get_model. rewrite Hm.
  by destruct (fit_raises B e X y ev).
Qed.

Lemma wp_tree_shap_values m X e (Q : PyExc + ndarray → gmap ref Estimator → Prop) h :
  h !! m = Some e →
  Q (TreeExplainer_shap_values B e X) h →
  wp (tree_shap_values B m X) Q h.
Proof.
  intros Hm HQ. unfold tree_shap_values. apply wp_bind, wp_get_model.
  by rewrite Hm.
Qed.

Lemma wp_linear_shap_values m bg X e
      (Q : PyExc + ndarray → gmap ref Estimator → Prop) h :
  h !! m = Some e →
  Q (Linear_shap_values B e bg X) h →
  wp (linear_shap_values B m bg X) Q h.
Proof.
  intros Hm HQ. unfold linear_shap_values. apply wp_bind, wp_get_model.
  by rewrite Hm.
Qed.

Lemma wp_try_except {St A} (m k : Py St A) (Q : PyExc + A → St → Prop) (s : St) :
  wp m (λ r s', match r with
                | inl _ => wp k Q s'
                | inr a => Q (inr a) s'
                end) s →
  wp (try_except m k) Q s.
Proof. unfold wp, try_except. by destruct (m s) as [[e|a] s']. Qed.

(** A reference outside the store is not the reference of an estimator in
    it. *)
Lemma fresh_lookup h : h !! fresh (dom h) = None.
Proof. apply not_elem_of_dom, is_fresh. Qed.

Lemma fresh_other h l : is_Some (h !! l) → fresh (dom h) ≠ l.
Proof. intros [e He] <-. by rewrite fresh_lookup in He. Qed.
End ModelSteps.

Section Templates.
Context (B : Backend).

(** Looking up an estimator that existed before the calls which only wrote
    at the new reference. *)
Ltac old_lookup :=
  rewrite ?lookup_insert_ne by (apply fresh_other; eauto); try done.

Ltac new_model t key :=
  intros A _; eexists _, _, t; split; [done|];
  split; [apply fresh_lookup|]; split; [apply lookup_insert_eq|];
  split; [done|]; split; [by eexists|]; intros k Hk; simpl;
  try (by rewrite lookup_insert_ne); done.

Lemma catboost_fits_a_fresh_model (self : CatboostExplainer.t) :
  fits_a_fresh_model B "random_seed" self.
Proof.
  intros Xt Yt Xv Yv seed h. cbv zeta.
  change (wp (CatboostExplainer._fit_get_shap B self Xt Yt Xv Yv seed)
            (λ r h', h' !! model self = h !! model self ∧
                     (∀ l, is_Some (h !! l) → h' !! l = h !! l) ∧
                     (∀ A, r = inr A →
                        ∃ l m t, h !! model self = Some t ∧ h !! l = None ∧
                                 h' !! l = Some m ∧ derived_from "random_seed" t m)) h).
  unfold CatboostExplainer._fit_get_shap.
  apply wp_bind, wp_catboost_copy. simpl.
  destruct (h !! CatboostExplainer.model self) as [t|] eqn:Ht; [|done].
  apply wp_bind. eapply wp_catboost_set_params; [apply lookup_insert_eq|].
  rewrite insert_insert_eq.
  apply wp_bind. eapply wp_model_fit; [apply lookup_insert_eq|].
  rewrite insert_insert_eq.
  destruct (fit_raises B _ Xt Yt _) as [exc|].
  { split; [by old_lookup|]. split; [|done]. intros l Hl. by old_lookup. }
  eapply wp_tree_shap_values; [apply lookup_insert_eq|].
  split; [by old_lookup|]. split; [intros l Hl; by old_lookup|].
  new_model t "random_seed".
Qed.

Lemma ensemble_fits_a_fresh_model (self : EnsembleExplainer.t) :
  fits_a_fresh_model B "random_state" self.
Proof.
  intros Xt Yt Xv Yv seed h. cbv zeta.
  change (wp (EnsembleExplainer._fit_get_shap B self Xt Yt Xv Yv seed)
            (λ r h', h' !! model self = h !! model self ∧
                     (∀ l, is_Some (h !! l) → h' !! l = h !! l) ∧
                     (∀ A, r = inr A →
                        ∃ l m t, h !! model self = Some t ∧ h !! l = None ∧
                                 h' !! l = Some m ∧ derived_from "random_state" t m)) h).
  unfold EnsembleExplainer._fit_get_shap.
  apply wp_bind, wp_clone. simpl.
  destruct (h !! EnsembleExplainer.model self) as [t|] eqn:Ht; [|done].
  apply wp_bind. eapply wp_sklearn_set_params; [apply lookup_insert_eq|].
  destruct (decide _) as [Hkey|Hkey].
  2:{ split; [by old_lookup|]. split; [|done]. intros l Hl. by old_lookup. }
  rewrite insert_insert_eq.
  apply wp_bind. eapply wp_model_fit; [apply lookup_insert_eq|].
  rewrite insert_insert_eq.
  destruct (fit_raises B _ Xt Yt _) as [exc|].
  { split; [by old_lookup|]. split; [|done]. intros l Hl. by old_lookup. }
  eapply wp_tree_shap_values; [apply lookup_insert_eq|].
  split; [by old_lookup|]. split; [intros l Hl; by old_lookup|].
  new_model t "random_state".
Qed.

(** The estimator that [LinearExplainer._fit_get_shap] fits: the clone gets
    the seed when the template has a [random_state] parameter. *)
Lemma wp_linear_clone (self : LinearExplainer.t) seed t
      (Q : PyExc + ref → gmap ref Estimator → Prop) h :
  h !! LinearExplainer.model self = Some t →
  (∀ l h', h !! l = None → (∀ l', is_Some (h !! l') → h' !! l' = h !! l') →
           h' !! l = Some (seeded_clone seed t) → Q (inr l) h') →
  wp (try_except
        (c ← clone (LinearExplainer.model self);
         sklearn_set_params c "random_state" (VInt seed))
        (clone (LinearExplainer.model self))) Q h.
Proof.
  intros Ht HQ. apply wp_try_except, wp_bind, wp_clone. rewrite Ht.
  eapply wp_sklearn_set_params; [apply lookup_insert_eq|].
  unfold seeded_clone in HQ. simpl. destruct (decide _) as [Hkey|Hkey].
  - rewrite insert_insert_eq. apply (HQ (fresh (dom h))).
    + apply fresh_lookup.
    + intros l' Hl'. by old_lookup.
    + apply lookup_insert_eq.
  - set (h1 := <[fresh (dom h) := unfitted t]> h).
    apply wp_clone.
    assert (h1 !! LinearExplainer.model self = Some t) as ->.
    { unfold h1. by old_lookup. }
    assert (h !! fresh (dom h1) = None) as Hnew.
    { destruct (h !! fresh (dom h1)) as [e|] eqn:He; [|done].
      assert (<[fresh (dom h) := unfitted t]> h !! fresh (dom h1) = None) as Hf
        by apply fresh_lookup.
      rewrite lookup_insert_ne in Hf; [congruence|].
      intros Heq. rewrite <- Heq in He. by rewrite fresh_lookup in He. }
    apply (HQ (fresh (dom h1))); [done| |apply lookup_insert_eq].
    intros l' Hl'. rewrite lookup_insert_ne.
    + unfold h1. by old_lookup.
    + intros Heq. rewrite <- Heq, Hnew in Hl'. by destruct Hl'.
Qed.

Lemma linear_fits_a_fresh_model (self : LinearExplainer.t) :
  fits_a_fresh_model B "random_state" self.
Proof.
  intros Xt Yt Xv Yv seed h. cbv zeta.
  change (wp (LinearExplainer._fit_get_shap B self Xt Yt Xv Yv seed)
            (λ r h', h' !! model self = h !! model self ∧
                     (∀ l, is_Some (h !! l) → h' !! l = h !! l) ∧
                     (∀ A, r = inr A →
                        ∃ l m t, h !! model self = Some t ∧ h !! l = None ∧
                                 h' !! l = Some m ∧ derived_from "random_state" t m)) h).
  unfold LinearExplainer._fit_get_shap. simpl.
  destruct (h !! LinearExplainer.model self) as [t|] eqn:Ht.
  2:{ apply wp_bind, wp_try_except, wp_bind, wp_clone. rewrite Ht.
      apply wp_clone. by rewrite Ht. }
  apply wp_bind. apply (wp_linear_clone self seed t); [done|].
  intros l h' Hl Hold Hnew.
  assert (l ≠ LinearExplainer.model self) as Hne by congruence.
  apply wp_bind. eapply wp_model_fit; [exact Hnew|].
  destruct (fit_raises B _ Xt Yt _) as [exc|].
  { split; [rewrite <- Ht; by apply Hold|]. split; [|done]. done. }
  eapply wp_linear_shap_values; [apply lookup_insert_eq|].
  split; [rewrite lookup_insert_ne by done; rewrite <- Ht; by apply Hold|].
  split.
  { intros l' Hl'. rewrite lookup_insert_ne; [by apply Hold|].
    intros <-. rewrite Hl in Hl'. by destruct Hl'. }
  intros A _. eexists l, _, t. split; [done|]. split; [done|].
  split; [apply lookup_insert_eq|]. unfold derived_from, seeded_clone.
  destruct (decide _); simpl.
  - split; [done|]. split; [by eexists|]. intros k Hk. by rewrite lookup_insert_ne.
  - split; [done|]. split; [by eexists|]. done.
Qed.

Lemma ensemble_result_spec (self : EnsembleExplainer.t) Xt Yt Xv Yv seed
      (h : gmap ref Estimator) t :
  h !! model self = Some t →
  (_fit_get_shap B self Xt Yt Xv Yv seed h).1 = ensemble_result B t Xt Yt Xv seed.
Proof.
  intros Ht.
  change (wp (EnsembleExplainer._fit_get_shap B self Xt Yt Xv Yv seed)
            (λ r _, r = ensemble_result B t Xt Yt Xv seed) h).
  unfold EnsembleExplainer._fit_get_shap, ensemble_result.
  apply wp_bind, wp_clone. simpl in Ht. rewrite Ht.
  apply wp_bind. eapply wp_sklearn_set_params; [apply lookup_insert_eq|].
  simpl. destruct (decide _) as [Hkey|Hkey]; [|done].
  rewrite insert_insert_eq.
  apply wp_bind. eapply wp_model_fit; [apply lookup_insert_eq|].
  destruct (fit_raises B _ Xt Yt None) as [exc|]; [done|].
  by eapply wp_tree_shap_values; [apply lookup_insert_eq|].
Qed.

(** The outcome of the ensemble explainer is a function of its arguments
    and of the template. *)
Lemma ensemble_deterministic (self : EnsembleExplainer.t) t :
  explainer_deterministic B self (λ h, h !! model self = Some t).
Proof.
  intros Xt Yt Xv Yv seed h1 h2 H1 H2. cbv zeta.
  rewrite !(ensemble_result_spec self Xt Yt Xv Yv seed _ t) by done.
  split; [done|]. intros A _.
  destruct (ensemble_fits_a_fresh_model self Xt Yt Xv Yv seed h1) as [-> _].
  by destruct (ensemble_fits_a_fresh_model self Xt Yt Xv Yv seed h2) as [-> _].
Qed.

Lemma deep_learning_fits_a_fresh_model (self : DeepLearningExplainer.t) :
  fits_a_fresh_model B "random_state" self.
Proof. intros Xt Yt Xv Yv seed h. cbv zeta. simpl. done. Qed.

(** ** The estimator which a call fits *)

Lemma catboost_makes_model (self : CatboostExplainer.t) Xt Yt Xv Yv seed
      (h : gmap ref Estimator) t :
  h !! model self = Some t →
  fit_raises B (with_param "random_seed" (VInt seed) t) Xt Yt (Some (Xv, Yv))
  = None →
  fits_new h (_fit_get_shap B self Xt Yt Xv Yv seed h).2
           (fitted_on Xt Yt (Some (Xv, Yv))
                      (with_param "random_seed" (VInt seed) t)).
Proof.
  intros Ht Hfit.
  change (wp (CatboostExplainer._fit_get_shap B self Xt Yt Xv Yv seed)
             (λ _ h', fits_new h h'
                        (fitted_on Xt Yt (Some (Xv, Yv))
                                   (with_param "random_seed" (VInt seed) t))) h).
  unfold CatboostExplainer._fit_get_shap.
  apply wp_bind, wp_catboost_copy. simpl in Ht. rewrite Ht.
  apply wp_bind. eapply wp_catboost_set_params; [apply lookup_insert_eq|].
  rewrite insert_insert_eq.
  apply wp_bind. eapply wp_model_fit; [apply lookup_insert_eq|].
  rewrite insert_insert_eq, Hfit.
  eapply wp_tree_shap_values; [apply lookup_insert_eq|].
  exists (fresh (dom h)). split; [apply fresh_lookup|apply lookup_insert_eq].
Qed.

Lemma ensemble_makes_model (self : EnsembleExplainer.t) Xt Yt Xv Yv seed
      (h : gmap ref Estimator) t :
  h !! model self = Some t →
  "random_state" ∈ dom (est_params t) →
  fit_raises B (with_param "random_state" (VInt seed) (unfitted t)) Xt Yt None
  = None →
  fits_new h (_fit_get_shap B self Xt Yt Xv Yv seed h).2
           (fitted_on Xt Yt None
                      (with_param "random_state" (VInt seed) (unfitted t))).
Proof.
  intros Ht Hkey Hfit.
  change (wp (EnsembleExplainer._fit_get_shap B self Xt Yt Xv Yv seed)
             (λ _ h', fits_new h h'
                        (fitted_on Xt Yt None
                           (with_param "random_state" (VInt seed) (unfitted t)))) h).
  unfold EnsembleExplainer._fit_get_shap.
  apply wp_bind, wp_clone. simpl in Ht. rewrite Ht.
  apply wp_bind. eapply wp_sklearn_set_params; [apply lookup_insert_eq|].
  rewrite decide_True by done. rewrite insert_insert_eq.
  apply wp_bind. eapply wp_model_fit; [apply lookup_insert_eq|].
  rewrite insert_insert_eq, Hfit.
  eapply wp_tree_shap_values; [apply lookup_insert_eq|].
  exists (fresh (dom h)). split; [apply fresh_lookup|apply lookup_insert_eq].
Qed.

Lemma linear_makes_model (self : LinearExplainer.t) Xt Yt Xv Yv seed
      (h : gmap ref Estimator) t :
  h !! model self = Some t →
  fit_raises B (seeded_clone seed t) Xt Yt None = None →
  fits_new h (_fit_get_shap B self Xt Yt Xv Yv seed h).2
           (fitted_on Xt Yt None (seeded_clone seed t)).
Proof.
  intros Ht Hfit.
  change (wp (LinearExplainer._fit_get_shap B self Xt Yt Xv Yv seed)
             (λ _ h', fits_new h h'
                        (fitted_on Xt Yt None (seeded_clone seed t))) h).
  unfold LinearExplainer._fit_get_shap.
  apply wp_bind. apply (wp_linear_clone self seed t); [done|].
  intros l h' Hl Hold Hnew.
  apply wp_bind. eapply wp_model_fit; [exact Hnew|]. rewrite Hfit.
  eapply wp_linear_shap_values; [apply lookup_insert_eq|].
  exists l. split; [done|apply lookup_insert_eq].
Qed.
End Templates.

(** C8 (amended). For each of the four explainer classes, a call of
    [_fit_get_shap] leaves the template [self.model] exactly as it was (and
    every other estimator that existed before the call), whatever the
    outcome, and a call that returns has allocated a new estimator, of the
    class and with the parameters of the template but for the seed
    parameter, and has fitted that one. The catboost, ensemble and linear
    classes do produce this estimator whenever [fit] does not raise (for the
    ensemble class, the template must also have a [random_state] parameter):
    a copy of the template with the seed as [random_seed], a clone with the
    seed as [random_state], and a clone with the seed as [random_state] when
    the template has this parameter, fitted on the training data (the
    validation data being the [eval_set] for catboost). The deep-learning
    class produces none: every call raises [NotImplementedError] and leaves
    the store as it was. *)
Theorem template_never_mutated (B : Backend)
        (cb : CatboostExplainer.t) (en : EnsembleExplainer.t)
        (li : LinearExplainer.t) (dl : DeepLearningExplainer.t) :
  (fits_a_fresh_model B "random_seed" cb ∧
   fits_a_fresh_model B "random_state" en ∧
   fits_a_fresh_model B "random_state" li ∧
   fits_a_fresh_model B "random_state" dl) ∧
  (∀ X_train Y_train X_val Y_val seed (h : gmap ref Estimator) t,
     let c := with_param "random_seed" (VInt seed) t in
     h !! model cb = Some t →
     fit_raises B c X_train Y_train (Some (X_val, Y_val)) = None →
     fits_new h (_fit_get_shap B cb X_train Y_train X_val Y_val seed h).2
              (fitted_on X_train Y_train (Some (X_val, Y_val)) c)) ∧
  (∀ X_train Y_train X_val Y_val seed (h : gmap ref Estimator) t,
     let c := with_param "random_state" (VInt seed) (unfitted t) in
     h !! model en = Some t →
     "random_state" ∈ dom (est_params t) →
     fit_raises B c X_train Y_train None = None →
     fits_new h (_fit_get_shap B en X_train Y_train X_val Y_val seed h).2
              (fitted_on X_train Y_train None c)) ∧
  (∀ X_train Y_train X_val Y_val seed (h : gmap ref Estimator) t,
     let c := seeded_clone seed t in
     h !! model li = Some t →
     fit_raises B c X_train Y_train None = None →
     fits_new h (_fit_get_shap B li X_train Y_train X_val Y_val seed h).2
              (fitted_on X_train Y_train None c)) ∧
  (∀ X_train Y_train X_val Y_val seed (h : gmap ref Estimator),
     _fit_get_shap B dl X_train Y_train X_val Y_val seed h
     = (inl NotImplementedError, h)).
Proof.
  split.
  { split; [apply catboost_fits_a_fresh_model|].
    split; [apply ensemble_fits_a_fresh_model|].
    split; [apply linear_fits_a_fresh_model|].
    apply deep_learning_fits_a_fresh_model. }
  split; [intros; by apply catboost_makes_model|].
  split; [intros; by apply ensemble_makes_model|].
  split; [intros; by apply linear_makes_model|].
  done.
Qed.

(** C9. Every call of [DeepLearningExplainer._fit_get_shap] raises
    [NotImplementedError], which is none of the exceptions of a failed
    precondition ([AssertionError]) or of bad data ([ValueError],
    [IndexError]); the store of estimators is left as it was, so that no
    model is fitted, and no matrix is returned. *)
Theorem deep_learning_not_implemented (B : Backend)
        (self : DeepLearningExplainer.t) X_train Y_train X_val Y_val seed
        (h : gmap ref Estimator) :
  _fit_get_shap B self X_train Y_train X_val Y_val seed h
    = (inl NotImplementedError, h) ∧
  (∀ A, (_fit_get_shap B self X_train Y_train X_val Y_val seed h).1 ≠ inr A) ∧
  NotImplementedError ≠ AssertionError ∧
  NotImplementedError ≠ ValueError ∧
  NotImplementedError ≠ IndexError.
Proof. by repeat split. Qed.

(** C10. [LinearExplainer._fit_get_shap] fits a clone of the template: the
    clone has the seed as its [random_state] when the template has such a
    parameter, and is a plain clone when it has none (the refusal of
    [set_params] is caught); in both cases [fit] is called on the clone, and
    the call returns what the linear explainer computes for the fitted clone
    unless [fit] itself raises. *)
Theorem linear_seed_fallback (B : Backend) (self : LinearExplainer.t)
        X_train Y_train X_val Y_val seed (h : gmap ref Estimator) t :
  h !! model self = Some t →
  let c := seeded_clone seed t in
  let out := _fit_get_shap B self X_train Y_train X_val Y_val seed h in
  ("random_state" ∈ dom (est_params t) →
     est_params c = <["random_state" := VInt seed]> (est_params t)) ∧
  ("random_state" ∉ dom (est_params t) → c = unfitted t) ∧
  out.1 = match fit_raises B c X_train Y_train None with
          | Some e => inl e
          | None => Linear_shap_values B (fitted_on X_train Y_train None c)
                                       X_train X_val
          end ∧
  (fit_raises B c X_train Y_train None = None →
   ∃ l, h !! l = None ∧ out.2 !! l = Some (fitted_on X_train Y_train None c)).
Proof.
  intros Ht. cbv zeta.
  split. { intros Hin. unfold seeded_clone. by rewrite decide_True. }
  split. { intros Hin. unfold seeded_clone. by rewrite decide_False. }
  change (wp (LinearExplainer._fit_get_shap B self X_train Y_train X_val Y_val seed)
    (λ r h',
       r = match fit_raises B (seeded_clone seed t) X_train Y_train None with
           | Some e => inl e
           | None => Linear_shap_values B
                       (fitted_on X_train Y_train None (seeded_clone seed t))
                       X_train X_val
           end ∧
       (fit_raises B (seeded_clone seed t) X_train Y_train None = None →
        ∃ l, h !! l = None ∧
             h' !! l = Some (fitted_on X_train Y_train None (seeded_clone seed t)))) h).
  unfold LinearExplainer._fit_get_shap.
  apply wp_bind. apply (wp_linear_clone self seed t); [done|].
  intros l h' Hl Hold Hnew.
  apply wp_bind. eapply wp_model_fit; [exact Hnew|].
  destruct (fit_raises B _ X_train Y_train None) as [exc|]; [done|].
  eapply wp_linear_shap_values; [apply lookup_insert_eq|].
  split; [done|]. intros _. exists l. split; [done|]. apply lookup_insert_eq.
Qed.

(** A linear regression has no [random_state]: the clone is fitted
    without a seed and the call returns. *)
Lemma linear_seed_fallback_witness :
  ("random_state" ∉ dom (est_params toy_linear)) ∧
  ((_fit_get_shap (toy_backend id) toy_linear_explainer
                  (values toy_frame) toy_labels (values toy_frame) toy_labels 7
                  {[0%nat := toy_linear]}).1
   = inr (values toy_frame)).
Proof.
  split; [by apply not_elem_of_dom|].
  assert (({[0%nat := toy_linear]} : gmap ref Estimator)
            !! model toy_linear_explainer = Some toy_linear) as Ht
    by (vm_compute; reflexivity).
  destruct (linear_seed_fallback (toy_backend id) toy_linear_explainer
              (values toy_frame) toy_labels (values toy_frame) toy_labels 7
              {[0%nat := toy_linear]} toy_linear Ht)
    as (_ & _ & Hout & _).
  exact Hout.
Defined.

(** * The shape of the importance table *)

Section PureSteps.
Implicit Types (df : DataFrame) (idx : list nat).

Lemma take_ok {A} (a : list A) idx :
  Forall (λ k, (k < length a)%nat) idx →
  ∃ r, take a idx = inr r ∧ length r = length idx.
Proof.
  intros Hidx. unfold take.
  destruct (mapM (λ i, a !! i) idx) as [r|] eqn:Hr.
  - exists r. split; [done|]. symmetry. by eapply length_mapM.
  - exfalso. assert (is_Some (mapM (λ i, a !! i) idx)) as [r' Hr'];
      [|congruence].
    apply mapM_is_Some. eapply Forall_impl; [exact Hidx|].
    intros k Hk. by apply lookup_lt_is_Some_2.
Qed.

Lemma iloc_ok df idx :
  Forall (λ k, (k < len df)%nat) idx →
  ∃ xt, iloc df idx = inr xt ∧ columns xt = columns df.
Proof.
  intros Hidx. unfold iloc. destruct (take_ok (data df) idx Hidx) as (r & -> & _).
  by eexists.
Qed.

Lemma setitem_ok df name u :
  length u = len df →
  ∃ df', setitem df name u = inr df' ∧ len df' = len df ∧
         columns df' = if decide (name ∈ columns df)
                       then columns df else columns df ++ [name].
Proof.
  intros Hu. unfold setitem. rewrite decide_True by done.
  destruct (decide (name ∈ columns df)); eexists; (split; [done|]);
    (split; [|done]); unfold len in *; simpl;
    rewrite length_zip_with; lia.
Qed.

Lemma length_importance B A : length (importance B A) = ncols A.
Proof.
  unfold importance, astype_float32, np_mean_axis0.
  by rewrite !length_map, length_seq.
Qed.

Lemma np_array_ok (shaps : list (list float)) k :
  Forall (λ r, length r = k) shaps → np_array shaps = inr shaps.
Proof.
  intros Hall. unfold np_array. destruct shaps as [|r rest]; [done|].
  assert (forallb (λ r', Nat.eqb (length r') (length r)) (r :: rest) = true) as ->;
    [|done].
  apply forallb_forall. intros r' Hr'%list_elem_of_In.
  apply Nat.eqb_eq. rewrite Forall_forall in Hall.
  rewrite (Hall r') by done. symmetry. apply Hall. by left.
Qed.

End PureSteps.

(** ** A run with the deep-learning explainer *)

Section DeepLearningRun.
Context (B : Backend).

(** X13. A run with the deep-learning explainer that reaches the explainer
    (the frame has no reserved column, there is at least one iteration, the
    generator and the splitter do their work) stops at the first call of the
    explainer, with [NotImplementedError]; no estimator is made or fitted. *)
Lemma deep_learning_run_not_implemented (self : DeepLearningExplainer.t)
      X y its v strat s σ df :
  frames σ !! X = Some df →
  0 < its →
  random_col_name ∉ columns df →
  length y = len df →
  generator_ok B s its (len df) →
  splitter_ok B v strat its (len df) →
  let out := explain B self X y its v strat s σ in
  out.1 = inl NotImplementedError ∧
  models out.2 = models σ ∧
  fit_calls (trace out.2) = S (fit_calls (trace σ)).
Proof.
  intros HX Hits Hfresh Hy Hgen Hsplit. cbv zeta.
  change (wp (explain B self X y its v strat s)
             (λ r σ', r = inl NotImplementedError ∧ models σ' = models σ ∧
                      fit_calls (trace σ') = S (fit_calls (trace σ))) σ).
  unfold explain.
  apply wp_bind, wp_get_frame. rewrite HX.
  apply wp_bind, wp_assert. rewrite bool_decide_false by done. simpl.
  apply wp_bind, wp_copy_deep. rewrite HX.
  rewrite (seqZ_cons 0 its) by lia. simpl.
  apply wp_bind, wp_bind. unfold explain_body.
  apply wp_bind, wp_get_frame. simpl. rewrite lookup_insert_eq.
  apply wp_bind, wp_uniform.
  destruct (Hgen 0 ltac:(lia)) as (u & -> & Hu).
  apply wp_bind. eapply wp_frame_setitem; [apply lookup_insert_eq|].
  destruct (setitem_ok df "random_uniform_feature" u) as (df' & -> & Hlen' & _);
    [done|].
  apply wp_bind, wp_get_frame. simpl. rewrite lookup_insert_eq.
  apply wp_bind, wp_split. rewrite Hlen'.
  destruct (Hsplit 0 ltac:(lia)) as (tr & va & -> & Htr & Hva).
  apply wp_bind, wp_get_frame. simpl. rewrite lookup_insert_eq.
  apply wp_bind, wp_call.
  destruct (iloc_ok df' tr) as (Xt & -> & _); [by rewrite Hlen'|].
  apply wp_bind, wp_call.
  destruct (iloc_ok df' va) as (Xv & -> & _); [by rewrite Hlen'|].
  apply wp_bind, wp_call.
  destruct (take_ok y tr) as (Yt & -> & _); [by rewrite Hy|].
  apply wp_bind, wp_call.
  destruct (take_ok y va) as (Yv & -> & _); [by rewrite Hy|].
  apply wp_bind, wp_fit_get_shap. intros r h [= <- <-].
  split; [done|]. split; [done|]. simpl.
  unfold fit_calls. rewrite !List.filter_app, !length_app. simpl. lia.
Qed.
End DeepLearningRun.

(** * Determinism *)

Section Agree.
Context {St : Type}.
Implicit Types s : St.

Lemma agree_bind {A C} (J : A → St → St → Prop) (J' : C → St → St → Prop)
      (m1 m2 : Py St A) (f1 f2 : A → Py St C) s1 s2 :
  agree J m1 m2 s1 s2 →
  (∀ a s1' s2', J a s1' s2' → agree J' (f1 a) (f2 a) s1' s2') →
  agree J' (m1 ≫= f1) (m2 ≫= f2) s1 s2.
Proof.
  unfold agree at 1 3, mbind, Py_bind. intros Hm Hf.
  destruct (m1 s1) as [[e1|a1] s1'], (m2 s2) as [[e2|a2] s2']; try done.
  destruct Hm as [<- HJ]. by apply Hf.
Qed.

(** Both computations take a step with one and the same result. *)
Lemma agree_step {A C} (J' : C → St → St → Prop) (r : PyExc + A)
      (m1 m2 : Py St A) (f1 f2 : A → Py St C) s1 s2 s1' s2' :
  m1 s1 = (r, s1') →
  m2 s2 = (r, s2') →
  (∀ a, r = inr a → agree J' (f1 a) (f2 a) s1' s2') →
  agree J' (m1 ≫= f1) (m2 ≫= f2) s1 s2.
Proof.
  intros H1 H2 Hf. unfold agree, mbind, Py_bind. rewrite H1, H2.
  destruct r as [e|a]; [done|]. by apply Hf.
Qed.

Lemma agree_ret {A} (J : A → St → St → Prop) (a : A) s1 s2 :
  J a s1 s2 → agree J (mret a) (mret a) s1 s2.
Proof. done. Qed.

Lemma agree_for_each {A C} (J : A → St → St → Prop)
      (f1 f2 : A → C → Py St A) l a s1 s2 :
  (∀ a c s1 s2, c ∈ l → J a s1 s2 → agree J (f1 a c) (f2 a c) s1 s2) →
  J a s1 s2 →
  agree J (for_each f1 l a) (for_each f2 l a) s1 s2.
Proof.
  revert a s1 s2. induction l as [|c l IH]; intros a s1 s2 Hf HJ.
  - by apply agree_ret.
  - simpl. eapply agree_bind.
    + apply Hf; [by left|done].
    + intros a' s1' s2' HJ'. apply IH; [|done].
      intros a'' c' s1'' s2'' Hc'. apply Hf. by right.
Qed.

Lemma agree_results {A} (J : A → St → St → Prop) (m1 m2 : Py St A) s1 s2 :
  agree J m1 m2 s1 s2 → (m1 s1).1 = (m2 s2).1.
Proof.
  unfold agree. destruct (m1 s1) as [[e1|a1] s1'], (m2 s2) as [[e2|a2] s2'];
    simpl; try done.
  - by intros ->.
  - by intros [-> _].
Qed.
End Agree.

Section Determinism.
Context (B : Backend) `{ShapExplainer E}.

(** One iteration of two runs on the same inputs. *)
Lemma explain_body_agree (self : E) (R : gmap ref Estimator → Prop)
      X1 X2 y v strat s vars i σ1 σ2 :
  explainer_deterministic B self R →
  same_inputs R X1 X2 σ1 σ2 →
  agree (λ _, same_inputs R X1 X2)
        (explain_body B self X1 y v strat s vars i)
        (explain_body B self X2 y v strat s vars i) σ1 σ2.
Proof.
  intros Hdet ((df & H1 & H2) & HR1 & HR2). unfold explain_body.
  eapply (agree_step _ (inr df)).
  { unfold get_frame, step. by rewrite H1. }
  { unfold get_frame, step. by rewrite H2. }
  intros ? [= <-].
  eapply agree_step; [reflexivity..|]. intros u _.
  destruct (setitem df "random_uniform_feature" u) as [e|df'] eqn:Hset.
  { eapply (agree_step _ (inl e)); [| |done];
      unfold frame_setitem, mbind, Py_bind, get_frame, step, call; simpl.
    - by rewrite H1, Hset.
    - by rewrite H2, Hset. }
  eapply (agree_step _ (inr tt)).
  { unfold frame_setitem, mbind, Py_bind, get_frame, step, call; simpl.
    by rewrite H1, Hset. }
  { unfold frame_setitem, mbind, Py_bind, get_frame, step, call; simpl.
    by rewrite H2, Hset. }
  intros _ _.
  eapply (agree_step _ (inr df')).
  { unfold get_frame, step. simpl. by rewrite lookup_insert_eq. }
  { unfold get_frame, step. simpl. by rewrite lookup_insert_eq. }
  intros ? [= <-].
  eapply agree_step; [reflexivity..|]. intros [tr va] _.
  eapply (agree_step _ (inr df')).
  { unfold get_frame, step. simpl. by rewrite lookup_insert_eq. }
  { unfold get_frame, step. simpl. by rewrite lookup_insert_eq. }
  intros ? [= <-].
  eapply agree_step; [reflexivity..|]. intros Xt _.
  eapply agree_step; [reflexivity..|]. intros Xv _.
  eapply agree_step; [reflexivity..|]. intros Yt _.
  eapply agree_step; [reflexivity..|]. intros Yv _.
  eapply agree_bind.
  - unfold agree, fit_get_shap, step. simpl.
    destruct (Hdet (values Xt) Yt (values Xv) Yv (i + s) _ _ HR1 HR2) as [Hr HR'].
    destruct (_fit_get_shap B self _ _ _ _ _ (models σ1)) as [r1 h1].
    destruct (_fit_get_shap B self _ _ _ _ _ (models σ2)) as [r2 h2].
    simpl in *. subst r2. destruct r1 as [e|A]; [done|].
    split; [done|]. destruct (HR' A eq_refl) as [HRa HRb].
    instantiate (1 := λ _ σ1' σ2', same_inputs R X1 X2 σ1' σ2').
    split; [|done]. exists df'. simpl. by rewrite !lookup_insert_eq.
  - intros A σ1' σ2' HJ. by apply agree_ret.
Qed.

(** [explain] after its assertion and the copy of the frame. *)
Lemma explain_unfold (self : E) X y its v strat s σ df :
  frames σ !! X = Some df →
  random_col_name ∉ columns df →
  explain B self X y its v strat s σ
  = (vars ← for_each (explain_body B self (fresh (dom (frames σ)))
                                   y v strat s)
                     (seqZ 0 its) ([], None);
     shaps ← call (np_array vars.1);
     match vars.2 with
     | None => raise UnboundLocalError
     | Some X_train => call (pd_DataFrame shaps (columns X_train))
     end)
      (set_frames (<[fresh (dom (frames σ)) := df]> (frames σ)) σ).
Proof.
  intros HX Hcol. unfold explain.
  rewrite (bind_inr (get_frame X) _ σ df σ)
    by (unfold get_frame, step; by rewrite HX).
  rewrite (bind_inr (py_assert _) _ σ tt σ)
    by (by rewrite bool_decide_false).
  rewrite (bind_inr (copy_deep X) _ σ (fresh (dom (frames σ)))
                    (set_frames (<[fresh (dom (frames σ)) := df]> (frames σ)) σ))
    by (unfold copy_deep, mbind, Py_bind, get_frame, step, alloc; by rewrite HX).
  unfold mbind at 1 3, Py_bind at 1 3.
  by destruct (for_each _ _ _ _) as [[e|[shaps Xt]] σ'].
Qed.

(** C7. Two calls of [explain] with the same arguments (the same frame
    contents, labels, iteration count, validation fraction, stratification
    and [random_seed_start]), with an explainer whose [_fit_get_shap] is a
    function of its arguments and seed, have the same outcome: the same
    importance table, or the same exception. The two calls may start from
    different states, for instance one after the other. *)
Theorem explain_deterministic (self : E) (R : gmap ref Estimator → Prop)
        X1 X2 y its v strat s σ1 σ2 df :
  frames σ1 !! X1 = Some df →
  frames σ2 !! X2 = Some df →
  R (models σ1) →
  R (models σ2) →
  explainer_deterministic B self R →
  (explain B self X1 y its v strat s σ1).1
  = (explain B self X2 y its v strat s σ2).1.
Proof.
  intros H1 H2 HR1 HR2 Hdet.
  destruct (decide (random_col_name ∈ columns df)) as [Hin|Hout].
  { by rewrite !(explain_reserved_name B self _ y its v strat s _ df). }
  rewrite !(explain_unfold self _ y its v strat s _ df) by done.
  apply (agree_results (λ _ _ _, True)).
  eapply agree_bind.
  - apply (agree_for_each (λ _, same_inputs R (fresh (dom (frames σ1)))
                                              (fresh (dom (frames σ2))))).
    + intros vars i σ1' σ2' _. by apply explain_body_agree.
    + split; [|done]. exists df. simpl. by rewrite !lookup_insert_eq.
  - intros [shaps Xt] σ1' σ2' _. simpl.
    eapply agree_step; [reflexivity..|]. intros sh _.
    destruct Xt as [Xt|]; [|done].
    unfold agree, call. by destruct (pd_DataFrame sh (columns Xt)).
Qed.
End Determinism.

(** * The calls of a run and the importances *)

Section Trace.
Context (B : Backend) `{ShapExplainer E}.

(** The three calls of an iteration that completes, and its importance
    vector. *)
Lemma explain_body_trace (self : E) X y v strat s vars i σ :
  wp (explain_body B self X y v strat s vars i)
     (λ r σ', ∀ vars', r = inr vars' →
        ∃ n arr Xt Yt Xv Yv A,
          trace σ' = trace σ ++ [EvUniform (i + s) n; EvSplit arr v i strat;
                                 EvFitGetShap Xt Yt Xv Yv (i + s) (inr A)] ∧
          vars'.1 = vars.1 ++ [importance B A]) σ.
Proof.
  unfold explain_body.
  apply wp_bind, wp_get_frame. destruct (frames σ !! X) as [df|] eqn:HX; [|done].
  apply wp_bind, wp_uniform.
  destruct (RandomState_uniform _ _ _ _ _) as [e|u]; [done|].
  apply wp_bind. eapply wp_frame_setitem; [exact HX|].
  destruct (setitem df _ u) as [e|df']; [done|].
  apply wp_bind, wp_get_frame. simpl. rewrite lookup_insert_eq.
  apply wp_bind, wp_split.
  destruct (train_test_split _ _ _ _ _) as [e|[tr va]]; simpl; [done|].
  apply wp_bind, wp_get_frame. simpl. rewrite lookup_insert_eq.
  apply wp_bind, wp_call. destruct (iloc df' tr) as [e|Xt]; simpl; [done|].
  apply wp_bind, wp_call. destruct (iloc df' va) as [e|Xv]; simpl; [done|].
  apply wp_bind, wp_call. destruct (take y tr) as [e|Yt]; simpl; [done|].
  apply wp_bind, wp_call. destruct (take y va) as [e|Yv]; simpl; [done|].
  apply wp_bind, wp_fit_get_shap. intros [e|A] h _; simpl; [done|].
  apply wp_ret. intros vars' [= <-]. simpl.
  eexists _, _, _, _, _, _, A. split; [|done].
  by rewrite <- !app_assoc.
Qed.

Lemma seqZ_to_nat its : seqZ 0 (Z.of_nat (Z.to_nat its)) = seqZ 0 its.
Proof. unfold seqZ. by rewrite Nat2Z.id. Qed.

(** The calls of a run that returns: iteration [i] draws the synthetic
    feature with the seed [i + random_seed_start], splits with the seed [i]
    and calls the explainer with the seed [i + random_seed_start]; the rows
    of the table are the importances of the matrices which the explainer
    returned. *)
Lemma explain_trace (self : E) X y its v strat s σ T σ' :
  explain B self X y its v strat s σ = (inr T, σ') →
  ∃ tr, trace σ' = trace σ ++ tr ∧
        data T = map (importance B) (attributions tr) ∧
        uniform_seeds tr = map (λ i, i + s) (seqZ 0 its) ∧
        split_seeds tr = seqZ 0 its ∧
        fit_seeds tr = map (λ i, i + s) (seqZ 0 its).
Proof.
  intros Hrun.
  cut (wp (explain B self X y its v strat s)
          (λ r σ1, ∀ T, r = inr T →
             ∃ tr, trace σ1 = trace σ ++ tr ∧
                   data T = map (importance B) (attributions tr) ∧
                   uniform_seeds tr = map (λ i, i + s) (seqZ 0 its) ∧
                   split_seeds tr = seqZ 0 its ∧
                   fit_seeds tr = map (λ i, i + s) (seqZ 0 its)) σ).
  { unfold wp. rewrite Hrun. simpl. intros Hwp. by apply Hwp. }
  clear Hrun. unfold explain.
  apply wp_bind, wp_get_frame. destruct (frames σ !! X) as [df|] eqn:HX; [|done].
  apply wp_bind, wp_assert. case_bool_decide as Hcol; simpl; [done|].
  apply wp_bind, wp_copy_deep. rewrite HX.
  apply wp_bind.
  apply (wp_for_each _ (trace_inv B σ s)).
  - exists []. simpl. by rewrite app_nil_r.
  - intros j i vars σ1 Hi%lookup_seqZ (tr & Htr & Hsh & Hu & Hsp & Hf).
    eapply wp_mono; [|apply explain_body_trace].
    intros [e|vars'] σ2 Hpost; [done|].
    destruct (Hpost vars' eq_refl) as (n & arr & Xt & Yt & Xv & Yv & A & Htr' & Hv).
    eexists (tr ++ _). rewrite Htr', Htr, <- app_assoc. split; [done|].
    unfold attributions, uniform_seeds, split_seeds, fit_seeds in *.
    rewrite !omap_app, seqZ_S, !map_app, Hv, Hsh, Hu, Hsp, Hf. simpl.
    destruct Hi as [-> _]. by rewrite !Z.add_0_l.
  - intros [shaps Xt] σ1 (tr & Htr & Hsh & Hu & Hsp & Hf). simpl in *.
    rewrite length_seqZ, seqZ_to_nat in *.
    apply wp_bind, wp_call. destruct (np_array shaps) as [e|sh] eqn:Harr; [done|].
    assert (sh = shaps) as ->.
    { unfold np_array in Harr. destruct shaps; [congruence|].
      destruct (forallb _ _); congruence. }
    destruct Xt as [Xt|]; [|done].
    apply wp_call. unfold pd_DataFrame. destruct (forallb _ _); [|done].
    intros T' [= <-]. exists tr. simpl. by rewrite Hsh.
Qed.

(** C6 (amended). numpy adding every row of a column once, in the order and
    the grouping it has for the array, the rows of the table of a run that
    returns are the importances of the matrices which the explainer
    returned, in order: for each column, numpy's sum of the absolute values
    divided by the number of rows, converted to binary32. When these
    matrices have finite entries and at least one row, every value of the
    table is greater than or equal to zero and is not NaN; it may be
    [+inf]. *)
Theorem explain_importances_nonneg (self : E) X y its v strat s σ T σ' :
  reduces_all_rows B →
  explain B self X y its v strat s σ = (inr T, σ') →
  ∃ tr, trace σ' = trace σ ++ tr ∧
        data T = map (importance B) (attributions tr) ∧
        (Forall finite_matrix (attributions tr) →
         Forall (Forall (λ x, ge0 x = true ∧ isnan x = false)) (data T)).
Proof.
  intros _ Hrun.
  destruct (explain_trace self X y its v strat s σ T σ' Hrun)
    as (tr & Htr & Hdata & _).
  exists tr. split; [done|]. split; [done|].
  intros Hfin. rewrite Hdata, Forall_map.
  eapply Forall_impl; [exact Hfin|]. intros A HA. simpl.
  eapply Forall_impl; [by apply sign_clear_importance|].
  intros x Hx. simpl. split; [by apply sign_clear_ge0|]. by destruct x.
Qed.
End Trace.

(** * The concrete backend honours the contracts *)

Section Toy.
Context (attribution : ndarray → ndarray).

Lemma toy_generator_ok s its n : generator_ok (toy_backend attribution) s its n.
Proof.
  intros i _. eexists. split; [reflexivity|]. by rewrite length_map, length_seq.
Qed.

Lemma toy_splitter_ok v strat its n :
  valid_fraction v = true → (2 ≤ n)%nat →
  splitter_ok (toy_backend attribution) v strat its n.
Proof.
  intros Hv Hn i _.
  change (train_test_split (toy_backend attribution)) with toy_split.
  unfold toy_split. rewrite Hv, length_seq.
  replace (2 <=? n)%nat with true by (symmetry; by apply Nat.leb_le).
  cbn [andb].
  eexists _, _. split; [reflexivity|].
  assert (∀ l, l ⊆ seq 0 n → Forall (λ k : nat, (k < n)%nat) l) as Hsub.
  { intros l Hl. apply Forall_forall. intros k Hk%Hl%elem_of_seq. lia. }
  split; apply Hsub.
  - intros k [Hk|Hk]%elem_of_app.
    + by eapply subseteq_take.
    + by eapply subseteq_drop.
  - intros k Hk. eapply subseteq_drop, subseteq_take, Hk.
Qed.
End Toy.

(** * The claims on concrete runs *)

(** C1 (the code at the failing input). A run of one iteration with
    [random_seed_start = 1] draws its synthetic feature and seeds the
    explainer with 1 but splits with 0, whereas iteration 1 of a run with
    [random_seed_start = 0] uses 1 for all three: the two iterations hand
    different training and validation matrices to the explainer. *)
Theorem split_seed_ignores_seed_start :
  let shifted :=
    trace (explain (toy_backend id) toy_explainer 0%nat toy_labels 1
                   f64_half None 1 toy_state).2 in
  let original :=
    trace (explain (toy_backend id) toy_explainer 0%nat toy_labels 2
                   f64_half None 0 toy_state).2 in
  uniform_seeds shifted = [1] ∧ fit_seeds shifted = [1] ∧
  split_seeds shifted = [0] ∧
  uniform_seeds original = [0; 1] ∧ fit_seeds original = [0; 1] ∧
  split_seeds original = [0; 1] ∧
  fit_inputs shifted !! 0%nat ≠ fit_inputs original !! 1%nat.
Proof.
  vm_compute. repeat split; discriminate.
Qed.

(** C3 (as stated, refuted). With the validation fraction 1.5, which is
    outside (0,1), and one iteration, the run does fail, but only in the
    first iteration: the generator has been called for the synthetic feature
    and the splitter has been called, so the run did not fail before any
    iteration. *)
Lemma invalid_fraction_fails_in_first_iteration :
  valid_fraction f64_three_halves = false ∧
  ¬ fails_before_first_iteration toy_state
      (explain (toy_backend id) toy_explainer 0%nat toy_labels 1
               f64_three_halves None 0 toy_state).
Proof.
  split; [reflexivity|]. intros [_ Htr]. vm_compute in Htr. discriminate.
Qed.

Lemma reserved_name_fails_fast_witness :
  let out := explain (toy_backend id) toy_explainer 0%nat toy_labels 2
                     f64_half None 0 toy_reserved_state in
  out.1 = inl AssertionError ∧
  out.2 = toy_reserved_state ∧
  fit_calls (trace out.2) = fit_calls (trace toy_reserved_state).
Proof.
  apply (reserved_name_fails_fast (toy_backend id) toy_explainer 0%nat
           toy_labels 2 f64_half None 0 toy_reserved_state toy_reserved_frame).
  - vm_compute. reflexivity.
  - apply elem_of_cons. right. apply elem_of_cons. by left.
Defined.

(** C6 (as stated, refuted). The explainer returns a matrix whose entries
    are all [2^130], a finite binary64 number; the run returns, and the
    values of its table are [+inf]: the mean is above the binary32 range. *)
Lemma finite_attributions_infinite_importance :
  let out := explain (toy_backend huge_attribution) toy_explainer 0%nat
                     toy_labels 1 f64_half None 0 toy_state in
  Forall all_finite (attributions (trace out.2)) ∧
  ∃ T, out.1 = inr T ∧
       ¬ Forall (Forall (λ x, isfinite x = true)) (data T).
Proof.
  cbv zeta. split.
  - vm_compute. repeat constructor.
  - eexists. split; [vm_compute; reflexivity|].
    intros Hall. apply Forall_cons_1 in Hall as [Hrow _].
    apply Forall_cons_1 in Hrow as [Hx _]. discriminate.
Qed.

(** Two iterations with two validation rows each: every value of the table
    is the mean of two absolute values. *)
Lemma explain_importances_nonneg_witness :
  ∃ tr,
    trace (explain (toy_wide_backend id) toy_explainer 0%nat toy_labels 2
                   f64_half None 0 toy_state).2
    = trace toy_state ++ tr ∧
    data toy_wide_table
    = map (importance (toy_wide_backend id)) (attributions tr) ∧
    (Forall finite_matrix (attributions tr) →
     Forall (Forall (λ x, ge0 x = true ∧ isnan x = false)) (data toy_wide_table)).
Proof.
  apply (explain_importances_nonneg (toy_wide_backend id) toy_explainer 0%nat
           toy_labels 2 f64_half None 0 toy_state toy_wide_table).
  - intros A j. simpl. by rewrite sequential_plan_rows.
  - vm_compute. reflexivity.
Defined.

(** The same run twice, the second in the state which the first left. *)
Lemma explain_deterministic_witness :
  let first := explain (toy_backend id) toy_explainer 0%nat toy_labels 2
                       f64_half None 0 toy_state in
  first.1 = (explain (toy_backend id) toy_explainer 0%nat toy_labels 2
                     f64_half None 0 first.2).1.
Proof.
  apply (explain_deterministic (toy_backend id) toy_explainer
           (λ h, h !! 0%nat = Some toy_forest) 0%nat 0%nat toy_labels 2
           f64_half None 0 toy_state _ toy_frame).
  - vm_compute. reflexivity.
  - vm_compute. reflexivity.
  - vm_compute. reflexivity.
  - vm_compute. reflexivity.
  - apply ensemble_deterministic.
Defined.

(** * What each iteration hands to the explainer *)

Section SyntheticColumn.
Implicit Types (df : DataFrame) (u : list float).

Lemma len_with_feature df u : length u = len df → len (with_feature df u) = len df.
Proof. intros Hu. unfold len in *. simpl. rewrite length_zip_with. lia. Qed.

Lemma setitem_fresh df u :
  random_col_name ∉ columns df →
  length u = len df →
  setitem df random_col_name u = inr (with_feature df u).
Proof.
  intros Hcol Hu. unfold setitem.
  by rewrite decide_True, decide_False by done.
Qed.

(** Writing the reserved column into a row that ends with it changes the
    last cell only. *)
Lemma replace_last_cell (cols : list string) (row : list float) x0 x :
  length row = length cols →
  random_col_name ∉ cols →
  zip_with (λ c old, if decide (c = random_col_name) then x else old)
           (cols ++ [random_col_name]) (row ++ [x0])
  = row ++ [x].
Proof.
  intros Hlen Hcol. rewrite zip_with_app by done.
  assert (zip_with (λ c old, if decide (c = random_col_name) then x else old)
                   [random_col_name] [x0] = [x]) as ->.
  { unfold zip_with. by rewrite decide_True. }
  f_equal.
  revert row Hlen. induction cols as [|c cols IH]; intros [|r row] Hlen;
    try done.
  simpl. apply not_elem_of_cons in Hcol as [Hc Hcol].
  rewrite decide_False by done. f_equal. apply IH; [done|].
  simpl in Hlen. lia.
Qed.

(** The column is replaced, not accumulated. *)
Lemma setitem_again df u0 u :
  well_formed df →
  random_col_name ∉ columns df →
  length u0 = len df →
  length u = len df →
  setitem (with_feature df u0) random_col_name u = inr (with_feature df u).
Proof.
  intros Hwf Hcol Hu0 Hu. unfold setitem.
  rewrite decide_True by (by rewrite len_with_feature).
  rewrite decide_True
    by (simpl; apply elem_of_app; right; by apply list_elem_of_singleton).
  unfold with_feature. simpl. do 2 f_equal.
  unfold well_formed, len in *. revert Hwf u0 u Hu0 Hu.
  generalize (columns df) Hcol. intros cols Hcols.
  induction (data df) as [|row rows' IH]; intros Hwf [|x0 u0] [|x u] Hu0 Hu;
    try done.
  simpl. apply Forall_cons_1 in Hwf as [Hrow Hwf]. f_equal.
  - by apply replace_last_cell.
  - apply IH; [done|simpl in *; lia..].
Qed.
End SyntheticColumn.

Section Iterations.
Context (B : Backend) `{ShapExplainer E}.

(** One iteration that completes, on a copy that is the caller's frame or
    the caller's frame with an earlier draw. *)
Lemma explain_body_calls (self : E) X' y v strat s df df' vars i σ :
  well_formed df →
  random_col_name ∉ columns df →
  frames σ !! X' = Some df' →
  (df' = df ∨ ∃ u0, length u0 = len df ∧ df' = with_feature df u0) →
  wp (explain_body B self X' y v strat s vars i)
     (λ r σ', ∀ vars', r = inr vars' →
        ∃ u evs,
          RandomState_uniform B (i + s) (f64_of_Z (-1)) (f64_of_Z 1) (len df)
          = inr u ∧
          length u = len df ∧
          iteration_calls B df y v strat s i evs ∧
          trace σ' = trace σ ++ evs ∧
          frames σ' = <[X' := with_feature df u]> (frames σ)) σ.
Proof.
  intros Hwf Hcol HX Hdf. unfold explain_body.
  assert (len df' = len df) as Hlen.
  { destruct Hdf as [->|(u0 & Hu0 & ->)]; [done|by apply len_with_feature]. }
  apply wp_bind, wp_get_frame. rewrite HX.
  apply wp_bind, wp_uniform. rewrite Hlen.
  destruct (RandomState_uniform _ _ _ _ _) as [e|u] eqn:Hgen; [done|].
  apply wp_bind. eapply wp_frame_setitem; [exact HX|].
  destruct (decide (length u = len df)) as [Hu|Hu].
  2:{ unfold setitem. by rewrite decide_False by congruence. }
  assert (setitem df' "random_uniform_feature" u = inr (with_feature df u)) as ->.
  { destruct Hdf as [->|(u0 & Hu0 & ->)].
    - by apply setitem_fresh.
    - by apply setitem_again. }
  apply wp_bind, wp_get_frame. simpl. rewrite lookup_insert_eq.
  apply wp_bind, wp_split. rewrite len_with_feature by done.
  destruct (train_test_split _ _ _ _ _) as [e|[tr va]] eqn:Hsplit; simpl; [done|].
  apply wp_bind, wp_get_frame. simpl. rewrite lookup_insert_eq.
  apply wp_bind, wp_call.
  destruct (iloc (with_feature df u) tr) as [e|Xt] eqn:HXt; simpl; [done|].
  apply wp_bind, wp_call.
  destruct (iloc (with_feature df u) va) as [e|Xv] eqn:HXv; simpl; [done|].
  apply wp_bind, wp_call. destruct (take y tr) as [e|Yt] eqn:HYt; simpl; [done|].
  apply wp_bind, wp_call. destruct (take y va) as [e|Yv] eqn:HYv; simpl; [done|].
  apply wp_bind, wp_fit_get_shap. intros [e|A] h _; simpl; [done|].
  apply wp_ret. intros vars' _. simpl.
  exists u, [EvUniform (i + s) (len df); EvSplit (seq 0 (len df)) v i strat;
             EvFitGetShap (values Xt) Yt (values Xv) Yv (i + s) (inr A)].
  split; [done|]. split; [done|].
  split; [by exists u, tr, va, Xt, Xv, Yt, Yv, A|].
  split; [by rewrite <- !app_assoc|done].
Qed.

(** The calls and the frames of a run that returns. *)
Lemma explain_calls (self : E) X y its v strat s σ df T σ' :
  frames σ !! X = Some df →
  well_formed df →
  explain B self X y its v strat s σ = (inr T, σ') →
  calls_inv B σ (fresh (dom (frames σ))) df y v strat s (Z.to_nat its) σ' ∧
  0 < its.
Proof.
  intros HX Hwf Hrun.
  cut (wp (explain B self X y its v strat s)
          (λ r σ1, ∀ T, r = inr T →
             calls_inv B σ (fresh (dom (frames σ))) df y v strat s
                       (Z.to_nat its) σ1 ∧ 0 < its) σ).
  { unfold wp. rewrite Hrun. simpl. intros Hwp. by apply (Hwp T). }
  clear Hrun. unfold explain.
  apply wp_bind, wp_get_frame. rewrite HX.
  apply wp_bind, wp_assert. case_bool_decide as Hcol; simpl; [done|].
  apply wp_bind, wp_copy_deep. rewrite HX.
  set (X' := fresh (dom (frames σ))).
  apply wp_bind.
  apply (wp_for_each _ (λ j vars σ1,
           calls_inv B σ X' df y v strat s j σ1 ∧
           (j = 0%nat → vars.2 = None))).
  - split; [|done]. split; [by exists []; simpl; rewrite app_nil_r|].
    by exists df.
  - intros j i vars σ1 Hi%lookup_seqZ
      [((calls & Htr & Hcalls) & (df' & Hfr & Hdf')) _].
    destruct Hi as [-> Hj]. rewrite Z.add_0_l.
    eapply wp_mono;
      [|apply (explain_body_calls self X' y v strat s df df'); try done].
    + intros [e|vars'] σ2 Hpost; [done|].
      destruct (Hpost vars' eq_refl) as (u & evs & Hgen & Hu & Hevs & Htr' & Hfr').
      split; [|done]. split.
      * exists (calls ++ [evs]). rewrite concat_app. simpl.
        rewrite app_nil_r, Htr', Htr, <- app_assoc. split; [done|].
        rewrite seqZ_S, Z.add_0_l. apply Forall2_app; [done|].
        by apply Forall2_cons.
      * exists (with_feature df u). rewrite Hfr', Hfr, insert_insert_eq.
        split; [done|]. by exists u.
    + rewrite Hfr. apply lookup_insert_eq.
    + destruct j as [|j']; [by left|]. right.
      destruct Hdf' as (u0 & _ & Hu0 & ->). by exists u0.
  - intros [shaps Xt] σ1 [Hinv Hnone]. rewrite length_seqZ in *. simpl in *.
    apply wp_bind, wp_call. destruct (np_array shaps) as [e|sh]; [done|].
    destruct Xt as [Xt|]; [|done].
    apply wp_call. destruct (pd_DataFrame sh (columns Xt)); [done|].
    intros T' _. split; [done|].
    destruct (Z.to_nat its) eqn:Hn; [by specialize (Hnone eq_refl)|lia].
Qed.

(** X1. Iterations do not depend on one another. The calls of a run that
    returns are, iteration after iteration in increasing order, exactly
    three: the draw of the synthetic feature with the seed
    [i + random_seed_start], the split of the row positions with the seed
    [i], and one call of the explainer with the seed
    [i + random_seed_start]. The matrices of that call are the rows,
    selected by this split, of the caller's frame extended by this draw:
    nothing of the earlier iterations is left in them. *)
Theorem iterations_independent (self : E) X y its v strat s σ df T σ' :
  frames σ !! X = Some df →
  well_formed df →
  explain B self X y its v strat s σ = (inr T, σ') →
  ∃ calls, trace σ' = trace σ ++ concat calls ∧
           Forall2 (iteration_calls B df y v strat s) (seqZ 0 its) calls.
Proof.
  intros HX Hwf Hrun.
  destruct (explain_calls self X y its v strat s σ df T σ' HX Hwf Hrun)
    as [[(calls & Htr & Hcalls) _] _].
  exists calls. split; [done|]. by rewrite seqZ_to_nat in Hcalls.
Qed.

(** X2. The synthetic column is replaced, not accumulated, and the run
    works on one copy. After a run that returns, the store of frames is the
    store before the run with one more frame: the caller's frame with one
    more column, the draw of the last iteration. *)
Theorem explain_working_copy (self : E) X y its v strat s σ df T σ' :
  frames σ !! X = Some df →
  well_formed df →
  explain B self X y its v strat s σ = (inr T, σ') →
  ∃ u, RandomState_uniform B (its - 1 + s) (f64_of_Z (-1)) (f64_of_Z 1) (len df)
       = inr u ∧
       length u = len df ∧
       frames σ' = <[fresh (dom (frames σ)) := with_feature df u]> (frames σ).
Proof.
  intros HX Hwf Hrun.
  destruct (explain_calls self X y its v strat s σ df T σ' HX Hwf Hrun)
    as [[_ (df' & Hfr & Hdf')] Hits].
  destruct (Z.to_nat its) as [|j'] eqn:Hj; [lia|].
  destruct Hdf' as (u & Hgen & Hu & ->).
  exists u. replace (its - 1) with (Z.of_nat j') by lia. done.
Qed.
End Iterations.
(** * Arguments which the code does not check *)

Section InvalidArguments.
Context (B : Backend) `{ShapExplainer E}.

(** C3 (amended). A run with a non-positive iteration count raises before
    any iteration: nothing is drawn, nothing is split, the explainer is not
    called and the estimators are as they were. The validation fraction is
    not checked by the code: in a run with a positive iteration count, on a
    frame without the reserved column, the fraction reaches
    [train_test_split] in iteration 0, after the synthetic feature of this
    iteration has been drawn with the seed [random_seed_start] and written
    into the working copy; when [train_test_split] refuses it, the run
    raises the exception of [train_test_split] there: the draw and the split
    are the only calls made, the explainer is not called and the estimators
    are as they were. *)
Theorem explain_invalid_arguments (self : E) X y its v strat s σ :
  let out := explain B self X y its v strat s σ in
  (its ≤ 0 →
   fails_before_first_iteration σ out ∧ models out.2 = models σ) ∧
  (0 < its → ∀ df u e,
     frames σ !! X = Some df →
     random_col_name ∉ columns df →
     RandomState_uniform B s (f64_of_Z (-1)) (f64_of_Z 1) (len df) = inr u →
     length u = len df →
     train_test_split B (seq 0 (len df)) v 0 strat = inl e →
     out.1 = inl e ∧
     trace out.2
     = trace σ ++ [EvUniform s (len df); EvSplit (seq 0 (len df)) v 0 strat] ∧
     fit_calls (trace out.2) = fit_calls (trace σ) ∧
     models out.2 = models σ ∧
     frames out.2 = <[fresh (dom (frames σ)) := with_feature df u]> (frames σ)).
Proof.
  cbv zeta. split.
  - intros Hle.
    change (wp (explain B self X y its v strat s)
               (λ r σ', ((∃ e, r = inl e) ∧ trace σ' = trace σ) ∧
                        models σ' = models σ) σ).
    unfold explain.
    apply wp_bind, wp_get_frame.
    destruct (frames σ !! X) as [df|] eqn:HX; [|by repeat split; eauto].
    apply wp_bind, wp_assert.
    case_bool_decide as Hcol; simpl; [by repeat split; eauto|].
    apply wp_bind, wp_copy_deep. rewrite HX.
    apply wp_bind.
    replace (seqZ 0 its) with (@nil Z); [|by rewrite seqZ_nil].
    apply wp_ret. apply wp_bind, wp_call. simpl. apply wp_raise.
    by repeat split; eauto.
  - intros Hpos df u e HX Hcol Hu Hlen Hsplit.
    change (wp (explain B self X y its v strat s)
               (λ r σ', r = inl e ∧
                  trace σ' = trace σ ++ [EvUniform s (len df);
                                         EvSplit (seq 0 (len df)) v 0 strat] ∧
                  fit_calls (trace σ') = fit_calls (trace σ) ∧
                  models σ' = models σ ∧
                  frames σ'
                  = <[fresh (dom (frames σ)) := with_feature df u]> (frames σ)) σ).
    unfold explain.
    apply wp_bind, wp_get_frame. rewrite HX.
    apply wp_bind, wp_assert. rewrite bool_decide_false by done. simpl.
    apply wp_bind, wp_copy_deep. rewrite HX.
    set (X' := fresh (dom (frames σ))).
    apply wp_bind. rewrite (seqZ_cons 0 its) by lia. simpl.
    apply wp_bind. unfold explain_body.
    apply wp_bind, wp_get_frame. simpl. rewrite lookup_insert_eq.
    apply wp_bind, wp_uniform. rewrite Z.add_0_l, Hu.
    apply wp_bind. eapply wp_frame_setitem; [simpl; apply lookup_insert_eq|].
    rewrite setitem_fresh by done.
    apply wp_bind, wp_get_frame. simpl. rewrite lookup_insert_eq.
    apply wp_bind, wp_split. rewrite len_with_feature by done. rewrite Hsplit.
    simpl. split; [done|]. split; [by rewrite <- app_assoc|].
    split; [|split; [done|by rewrite insert_insert_eq]].
    unfold fit_calls. rewrite !List.filter_app. simpl. by rewrite !app_nil_r.
Qed.
End InvalidArguments.

(** * Calls of the explainer that raise, and the estimators of a run *)

Section Failures.
Context (B : Backend) `{ShapExplainer E}.

(** In one iteration only the call of the explainer can be a failed call,
    and then it is the last call and the iteration raises its exception. *)
Lemma explain_body_failures (self : E) X y v strat s vars i σ :
  wp (explain_body B self X y v strat s vars i)
     (λ r σ', ∃ evs, trace σ' = trace σ ++ evs ∧
        match r with
        | inr _ => Forall (λ ev, failed_call ev = None) evs
        | inl e =>
            Forall (λ ev, failed_call ev = None) evs ∨
            ∃ evs0 ev, evs = evs0 ++ [ev] ∧
                       Forall (λ ev, failed_call ev = None) evs0 ∧
                       failed_call ev = Some e
        end) σ.
Proof.
  unfold explain_body.
  apply wp_bind, wp_get_frame.
  destruct (frames σ !! X) as [df|] eqn:HX.
  2:{ exists []. rewrite app_nil_r. split; [done|]. by left. }
  apply wp_bind, wp_uniform.
  destruct (RandomState_uniform _ _ _ _ _) as [e|u].
  { eexists [_]. split; [done|]. left. by repeat constructor. }
  apply wp_bind. eapply wp_frame_setitem; [exact HX|].
  destruct (setitem df _ u) as [e|df'].
  { eexists [_]. split; [done|]. left. by repeat constructor. }
  apply wp_bind, wp_get_frame. simpl. rewrite lookup_insert_eq.
  apply wp_bind, wp_split.
  assert (∀ (e0 : PyExc) ev1 ev2,
            failed_call ev1 = None → failed_call ev2 = None →
            ∃ evs, (trace σ ++ [ev1]) ++ [ev2] = trace σ ++ evs ∧
              (Forall (λ ev, failed_call ev = None) evs ∨
               ∃ evs0 ev, evs = evs0 ++ [ev] ∧
                          Forall (λ ev, failed_call ev = None) evs0 ∧
                          failed_call ev = Some e0)) as Hearly.
  { intros e0 ev1 ev2 H1 H2. exists [ev1; ev2].
    split; [by rewrite <- app_assoc|]. left. by repeat constructor. }
  destruct (train_test_split _ _ _ _ _) as [e|[tr va]]; simpl;
    [by apply Hearly|].
  apply wp_bind, wp_get_frame. simpl. rewrite lookup_insert_eq.
  apply wp_bind, wp_call. destruct (iloc df' tr) as [e|Xt]; simpl;
    [by apply Hearly|].
  apply wp_bind, wp_call. destruct (iloc df' va) as [e|Xv]; simpl;
    [by apply Hearly|].
  apply wp_bind, wp_call. destruct (take y tr) as [e|Yt]; simpl;
    [by apply Hearly|].
  apply wp_bind, wp_call. destruct (take y va) as [e|Yv]; simpl;
    [by apply Hearly|].
  apply wp_bind, wp_fit_get_shap. intros [e|A] h _; simpl.
  - eexists [_; _; _]. split; [by rewrite <- !app_assoc|]. right.
    eexists [_; _], _. split; [done|]. split; [by repeat constructor|done].
  - apply wp_ret. eexists [_; _; _]. split; [by rewrite <- !app_assoc|].
    by repeat constructor.
Qed.

(** X3. A failure of the explainer is not masked and ends the run. Among
    the calls of a run at most one call of the explainer has raised; when
    there is one it is the last call of the run, and the run raises the very
    exception of that call: no later iteration runs and no table is
    returned. *)
Theorem explainer_failure_unmasked (self : E) X y its v strat s σ :
  let out := explain B self X y its v strat s σ in
  ∃ tr, trace out.2 = trace σ ++ tr ∧
        (Forall (λ ev, failed_call ev = None) tr ∨
         ∃ tr0 ev e, tr = tr0 ++ [ev] ∧
                     Forall (λ ev, failed_call ev = None) tr0 ∧
                     failed_call ev = Some e ∧
                     out.1 = inl e).
Proof.
  cbv zeta.
  change (wp (explain B self X y its v strat s)
            (λ r σ', ∃ tr, trace σ' = trace σ ++ tr ∧
               (Forall (λ ev, failed_call ev = None) tr ∨
                ∃ tr0 ev e, tr = tr0 ++ [ev] ∧
                            Forall (λ ev, failed_call ev = None) tr0 ∧
                            failed_call ev = Some e ∧ r = inl e)) σ).
  assert (∀ (r : PyExc + DataFrame) σ1,
            (∃ tr, trace σ1 = trace σ ++ tr ∧
                   Forall (λ ev, failed_call ev = None) tr) →
            ∃ tr, trace σ1 = trace σ ++ tr ∧
               (Forall (λ ev, failed_call ev = None) tr ∨
                ∃ tr0 ev e, tr = tr0 ++ [ev] ∧
                            Forall (λ ev, failed_call ev = None) tr0 ∧
                            failed_call ev = Some e ∧ r = inl e)) as Hquiet.
  { intros r σ1 (tr & Htr & Hall). exists tr. split; [done|]. by left. }
  assert (∃ tr, trace σ = trace σ ++ tr ∧
                Forall (λ ev, failed_call ev = None) tr) as Hstart.
  { exists []. by rewrite app_nil_r. }
  unfold explain.
  apply wp_bind, wp_get_frame.
  destruct (frames σ !! X) as [df|] eqn:HX; [|by apply Hquiet].
  apply wp_bind, wp_assert. case_bool_decide as Hcol; simpl; [by apply Hquiet|].
  apply wp_bind, wp_copy_deep. rewrite HX.
  apply wp_bind.
  apply (wp_for_each _ (λ _ _ σ1, ∃ tr, trace σ1 = trace σ ++ tr ∧
                                   Forall (λ ev, failed_call ev = None) tr)).
  - done.
  - intros j i vars σ1 _ (tr & Htr & Hall).
    eapply wp_mono; [|apply explain_body_failures].
    intros [e|vars'] σ2 (evs & Hevs & Hcase).
    + exists (tr ++ evs). rewrite Hevs, Htr, <- app_assoc. split; [done|].
      destruct Hcase as [Hq|(evs0 & ev & -> & Hq & Hev)].
      * left. by apply Forall_app.
      * right. exists (tr ++ evs0), ev, e. rewrite app_assoc.
        split; [done|]. split; [by apply Forall_app|done].
    + exists (tr ++ evs). rewrite Hevs, Htr, <- app_assoc. split; [done|].
      by apply Forall_app.
  - intros [shaps Xt] σ1 Hinv.
    apply wp_bind, wp_call. destruct (np_array shaps) as [e|sh];
      [by apply Hquiet|].
    destruct Xt as [Xt|]; [|by apply Hquiet].
    apply wp_call. by apply Hquiet.
Qed.

(** A run keeps the estimators which each call of its explainer keeps. *)
Lemma explain_keeps_estimators (self : E) key :
  fits_a_fresh_model B key self → estimators_kept B self.
Proof.
  intros Hfresh X y its v strat s σ l Hl.
  change (wp (explain B self X y its v strat s)
             (λ _ σ', models σ' !! l = models σ !! l) σ).
  unfold explain.
  apply wp_bind, wp_get_frame. destruct (frames σ !! X) as [df|]; [|done].
  apply wp_bind, wp_assert. destruct (negb _); simpl; [|done].
  apply wp_bind, wp_copy_deep. destruct (frames σ !! X) as [df0|]; [|done].
  apply wp_bind.
  apply (wp_for_each _ (λ _ _ σ1, models σ1 !! l = models σ !! l)).
  - done.
  - intros j i vars σ1 _ Hinv.
    cut (wp (explain_body B self (fresh (dom (frames σ))) y v strat s vars i)
            (λ _ σ2, models σ2 !! l = models σ !! l) σ1).
    { apply wp_mono. by intros [e|a]. }
    unfold explain_body.
    apply wp_bind, wp_get_frame.
    destruct (frames σ1 !! _) as [df1|] eqn:HX1; [|done].
    apply wp_bind, wp_uniform.
    destruct (RandomState_uniform _ _ _ _ _) as [e|u]; [done|].
    apply wp_bind. eapply wp_frame_setitem; [exact HX1|].
    destruct (setitem df1 _ u) as [e|df']; [done|].
    apply wp_bind, wp_get_frame. simpl. rewrite lookup_insert_eq.
    apply wp_bind, wp_split.
    destruct (train_test_split _ _ _ _ _) as [e|[tr va]]; simpl; [done|].
    apply wp_bind, wp_get_frame. simpl. rewrite lookup_insert_eq.
    apply wp_bind, wp_call. destruct (iloc df' tr) as [e|Xt]; simpl; [done|].
    apply wp_bind, wp_call. destruct (iloc df' va) as [e|Xv]; simpl; [done|].
    apply wp_bind, wp_call. destruct (take y tr) as [e|Yt]; simpl; [done|].
    apply wp_bind, wp_call. destruct (take y va) as [e|Yv]; simpl; [done|].
    apply wp_bind, wp_fit_get_shap. intros r h Hcall. simpl in Hcall.
    destruct (Hfresh (values Xt) Yt (values Xv) Yv (i + s) (models σ1))
      as (_ & Hold & _).
    rewrite Hcall in Hold. simpl in Hold.
    assert (h !! l = models σ !! l) as Hh.
    { rewrite <- Hinv. apply Hold. by rewrite Hinv. }
    by destruct r.
  - intros [shaps Xt] σ1 Hinv.
    apply wp_bind, wp_call. destruct (np_array shaps) as [e|sh]; [done|].
    destruct Xt as [Xt|]; [done|done].
Qed.
End Failures.

(** X4. The template survives the whole run. For each of the four
    explainer classes, a run of [explain], whether it returns or raises,
    leaves every estimator that existed before it as it was, the template
    [self.model] among them: each iteration fits a clone. *)
Theorem run_keeps_estimators (B : Backend)
        (cb : CatboostExplainer.t) (en : EnsembleExplainer.t)
        (li : LinearExplainer.t) (dl : DeepLearningExplainer.t) :
  estimators_kept B cb ∧ estimators_kept B en ∧
  estimators_kept B li ∧ estimators_kept B dl.
Proof.
  split; [eapply explain_keeps_estimators, catboost_fits_a_fresh_model|].
  split; [eapply explain_keeps_estimators, ensemble_fits_a_fresh_model|].
  split; [eapply explain_keeps_estimators, linear_fits_a_fresh_model|].
  eapply explain_keeps_estimators, deep_learning_fits_a_fresh_model.
Qed.

(** * The shape of the table *)

Section Shape.
Context (B : Backend) `{ShapExplainer E}.


End Shape.

(** * The outcome of each explainer class *)

Section Outcomes.
Context (B : Backend).

Lemma catboost_result_spec (self : CatboostExplainer.t) Xt Yt Xv Yv seed
      (h : gmap ref Estimator) t :
  h !! model self = Some t →
  _fit_get_shap B self Xt Yt Xv Yv seed h
  = (catboost_result B t Xt Yt Xv Yv seed,
     match fit_raises B (with_param "random_seed" (VInt seed) t) Xt Yt
                      (Some (Xv, Yv)) with
     | Some _ => <[fresh (dom h) := with_param "random_seed" (VInt seed) t]> h
     | None => <[fresh (dom h) :=
                   fitted_on Xt Yt (Some (Xv, Yv))
                             (with_param "random_seed" (VInt seed) t)]> h
     end).
Proof.
  intros Ht. simpl in Ht.
  cut (wp (CatboostExplainer._fit_get_shap B self Xt Yt Xv Yv seed)
          (λ r h', (r, h') =
             (catboost_result B t Xt Yt Xv Yv seed,
              match fit_raises B (with_param "random_seed" (VInt seed) t) Xt Yt
                               (Some (Xv, Yv)) with
              | Some _ => <[fresh (dom h) := with_param "random_seed" (VInt seed) t]> h
              | None => <[fresh (dom h) :=
                            fitted_on Xt Yt (Some (Xv, Yv))
                                      (with_param "random_seed" (VInt seed) t)]> h
              end)) h).
  { unfold wp. simpl.
    by destruct (CatboostExplainer._fit_get_shap B self Xt Yt Xv Yv seed h). }
  unfold CatboostExplainer._fit_get_shap, catboost_result.
  apply wp_bind, wp_catboost_copy. rewrite Ht.
  apply wp_bind. eapply wp_catboost_set_params; [apply lookup_insert_eq|].
  rewrite insert_insert_eq.
  apply wp_bind. eapply wp_model_fit; [apply lookup_insert_eq|].
  rewrite insert_insert_eq.
  destruct (fit_raises B _ Xt Yt _) as [exc|]; [done|].
  by eapply wp_tree_shap_values; [apply lookup_insert_eq|].
Qed.

Lemma linear_result_spec (self : LinearExplainer.t) Xt Yt Xv Yv seed
      (h : gmap ref Estimator) t :
  h !! model self = Some t →
  (_fit_get_shap B self Xt Yt Xv Yv seed h).1 = linear_result B t Xt Yt Xv seed.
Proof.
  intros Ht.
  change (wp (LinearExplainer._fit_get_shap B self Xt Yt Xv Yv seed)
            (λ r _, r = linear_result B t Xt Yt Xv seed) h).
  unfold LinearExplainer._fit_get_shap, linear_result.
  apply wp_bind. apply (wp_linear_clone self seed t); [done|].
  intros l h' Hl Hold Hnew.
  apply wp_bind. eapply wp_model_fit; [exact Hnew|].
  destruct (fit_raises B _ Xt Yt None) as [exc|]; [done|].
  by eapply wp_linear_shap_values; [apply lookup_insert_eq|].
Qed.

Lemma catboost_deterministic (self : CatboostExplainer.t) t :
  explainer_deterministic B self (λ h, h !! model self = Some t).
Proof.
  intros Xt Yt Xv Yv seed h1 h2 H1 H2. cbv zeta.
  rewrite !(catboost_result_spec self Xt Yt Xv Yv seed _ t) by done.
  split; [done|]. intros A _. simpl.
  split; destruct (fit_raises B _ Xt Yt _);
    by rewrite lookup_insert_ne by (apply fresh_other; eauto).
Qed.

Lemma linear_deterministic (self : LinearExplainer.t) t :
  explainer_deterministic B self (λ h, h !! model self = Some t).
Proof.
  intros Xt Yt Xv Yv seed h1 h2 H1 H2. cbv zeta.
  rewrite !(linear_result_spec self Xt Yt Xv Yv seed _ t) by done.
  split; [done|]. intros A _.
  destruct (linear_fits_a_fresh_model B self Xt Yt Xv Yv seed h1) as [-> _].
  by destruct (linear_fits_a_fresh_model B self Xt Yt Xv Yv seed h2) as [-> _].
Qed.

Lemma deep_learning_deterministic (self : DeepLearningExplainer.t) t :
  explainer_deterministic B self (λ h, h !! model self = Some t).
Proof. by intros Xt Yt Xv Yv seed h1 h2 H1 H2. Qed.

(** Two runs whose explainer is a function of its arguments. *)
Lemma explain_same_outcome `{ShapExplainer E} (self : E)
      (R : gmap ref Estimator → Prop) X1 X2 y its v strat s σ1 σ2 df :
  frames σ1 !! X1 = Some df →
  frames σ2 !! X2 = Some df →
  R (models σ1) →
  R (models σ2) →
  explainer_deterministic B self R →
  (explain B self X1 y its v strat s σ1).1
  = (explain B self X2 y its v strat s σ2).1.
Proof.
  intros H1 H2 HR1 HR2 Hdet.
  destruct (decide (random_col_name ∈ columns df)) as [Hin|Hout].
  { by rewrite !(explain_reserved_name B self _ y its v strat s _ df). }
  rewrite !(explain_unfold B self _ y its v strat s _ df) by done.
  apply (agree_results (λ _ _ _, True)).
  eapply agree_bind.
  - apply (agree_for_each (λ _, same_inputs R (fresh (dom (frames σ1)))
                                              (fresh (dom (frames σ2))))).
    + intros vars i σ1' σ2' _. by apply explain_body_agree.
    + split; [|done]. exists df. simpl. by rewrite !lookup_insert_eq.
  - intros [shaps Xt] σ1' σ2' _. simpl.
    eapply agree_step; [reflexivity..|]. intros sh _.
    destruct Xt as [Xt|]; [|done].
    unfold agree, call. by destruct (pd_DataFrame sh (columns Xt)).
Qed.
End Outcomes.

(** X5. [CatboostExplainer._fit_get_shap] fits a copy of the template that
    has the seed as its [random_seed] (set whatever the parameters of the
    template are: this never raises) with the validation data as
    [eval_set], and returns the tree explainer's values for the copy on
    [X_val]; it raises only what [fit] or the tree explainer raise. The
    fitted copy is a new estimator. *)
Theorem catboost_fits_with_eval_set (B : Backend) (self : CatboostExplainer.t)
        X_train Y_train X_val Y_val seed (h : gmap ref Estimator) t :
  h !! model self = Some t →
  let c := with_param "random_seed" (VInt seed) t in
  let out := _fit_get_shap B self X_train Y_train X_val Y_val seed h in
  out.1 = match fit_raises B c X_train Y_train (Some (X_val, Y_val)) with
          | Some e => inl e
          | None =>
              TreeExplainer_shap_values
                B (fitted_on X_train Y_train (Some (X_val, Y_val)) c) X_val
          end ∧
  (fit_raises B c X_train Y_train (Some (X_val, Y_val)) = None →
   h !! fresh (dom h) = None ∧
   out.2 = <[fresh (dom h) :=
               fitted_on X_train Y_train (Some (X_val, Y_val)) c]> h).
Proof.
  intros Ht. cbv zeta.
  rewrite (catboost_result_spec B self X_train Y_train X_val Y_val seed h t Ht).
  simpl. split; [done|]. intros ->. split; [apply fresh_lookup|done].
Qed.

(** X6. [EnsembleExplainer._fit_get_shap] has no fallback: when the
    template has no [random_state] parameter the call raises [ValueError]
    before anything is fitted (the store only gains the unfitted clone);
    when it has one, the clone is seeded and fitted without validation data
    and the call returns the tree explainer's values, unless [fit] raises. *)
Theorem ensemble_needs_random_state (B : Backend) (self : EnsembleExplainer.t)
        X_train Y_train X_val Y_val seed (h : gmap ref Estimator) t :
  h !! model self = Some t →
  let c := with_param "random_state" (VInt seed) (unfitted t) in
  let out := _fit_get_shap B self X_train Y_train X_val Y_val seed h in
  ("random_state" ∉ dom (est_params t) →
     out = (inl ValueError, <[fresh (dom h) := unfitted t]> h)) ∧
  ("random_state" ∈ dom (est_params t) →
     out.1 = match fit_raises B c X_train Y_train None with
             | Some e => inl e
             | None =>
                 TreeExplainer_shap_values
                   B (fitted_on X_train Y_train None c) X_val
             end).
Proof.
  intros Ht. cbv zeta. split.
  - intros Hkey. simpl in Ht.
    cut (wp (EnsembleExplainer._fit_get_shap B self X_train Y_train X_val Y_val seed)
            (λ r h', (r, h') = (inl ValueError, <[fresh (dom h) := unfitted t]> h)) h).
    { unfold wp. simpl.
      by destruct (EnsembleExplainer._fit_get_shap B self X_train Y_train
                     X_val Y_val seed h). }
    unfold EnsembleExplainer._fit_get_shap.
    apply wp_bind, wp_clone. rewrite Ht.
    apply wp_bind. eapply wp_sklearn_set_params; [apply lookup_insert_eq|].
    simpl. by rewrite decide_False.
  - intros Hkey.
    rewrite (ensemble_result_spec B self X_train Y_train X_val Y_val seed h t Ht).
    unfold ensemble_result. by rewrite decide_True.
Qed.

(** X7. Runs with the shipped explainers are reproducible. For each of the
    four explainer classes, two runs of [explain] on the same frame
    contents with the same arguments, in two stores that hold the same
    template at [self.model], have the same outcome, whatever else the
    stores hold (estimators fitted by earlier runs, other frames). *)
Theorem shipped_explainers_run_deterministic (B : Backend)
        (cb : CatboostExplainer.t) (en : EnsembleExplainer.t)
        (li : LinearExplainer.t) (dl : DeepLearningExplainer.t) :
  run_deterministic B cb ∧ run_deterministic B en ∧
  run_deterministic B li ∧ run_deterministic B dl.
Proof.
  repeat split; intros X1 X2 y its v strat s σ1 σ2 df t H1 H2 Ht1 Ht2.
  - apply (explain_same_outcome B cb (λ h, h !! model cb = Some t)
             X1 X2 y its v strat s σ1 σ2 df H1 H2 Ht1 Ht2).
    apply catboost_deterministic.
  - apply (explain_same_outcome B en (λ h, h !! model en = Some t)
             X1 X2 y its v strat s σ1 σ2 df H1 H2 Ht1 Ht2).
    apply ensemble_deterministic.
  - apply (explain_same_outcome B li (λ h, h !! model li = Some t)
             X1 X2 y its v strat s σ1 σ2 df H1 H2 Ht1 Ht2).
    apply linear_deterministic.
  - apply (explain_same_outcome B dl (λ h, h !! model dl = Some t)
             X1 X2 y its v strat s σ1 σ2 df H1 H2 Ht1 Ht2).
    apply deep_learning_deterministic.
Qed.

(** * Edge cases of a run *)

Section Edges.
Context (B : Backend) `{ShapExplainer E}.

Lemma take_error {A} (a : list A) idx e : take a idx = inl e → e = IndexError.
Proof. unfold take. destruct (mapM _ idx); congruence. Qed.

Lemma take_out_of_range {A} (a : list A) idx :
  Exists (λ k, (length a ≤ k)%nat) idx → take a idx = inl IndexError.
Proof.
  intros Hex. unfold take.
  destruct (mapM (λ i, a !! i) idx) as [r|] eqn:Hr; [|done].
  exfalso. apply mapM_Some in Hr.
  apply Exists_exists in Hex as (k & Hk & Hlen).
  apply list_elem_of_lookup in Hk as [p Hp].
  destruct (Forall2_lookup_l _ _ _ _ _ Hr Hp) as (x & _ & Hx).
  apply lookup_lt_Some in Hx. lia.
Qed.

Lemma pd_DataFrame_wrong_width (shaps : list (list float)) cols w :
  shaps ≠ [] →
  Forall (λ r, length r = w) shaps →
  w ≠ length cols →
  pd_DataFrame shaps cols = inl ValueError.
Proof.
  intros Hne Hall Hw. unfold pd_DataFrame.
  destruct shaps as [|r rest]; [done|].
  apply Forall_cons_1 in Hall as [Hr _]. simpl.
  replace (length r =? length cols)%nat with false; [done|].
  symmetry. apply Nat.eqb_neq. lia.
Qed.

Lemma explain_body_width (self : E) (R : gmap ref Estimator → Prop) σ0 X' y v
      strat s its n cols w j vars i σ :
  "random_uniform_feature" ∉ cols →
  length y = n →
  generator_ok B s its n →
  splitter_ok B v strat its n →
  explainer_returns_width B self R w →
  0 ≤ i < its →
  width_inv R σ0 X' n cols w j vars σ →
  wp (explain_body B self X' y v strat s vars i)
     (λ r σ', match r with
              | inl _ => False
              | inr vars' => width_inv R σ0 X' n cols w (S j) vars' σ'
              end) σ.
Proof.
  intros Hfresh Hy Hgen Hsplit Hexp Hi
    (HR & (df & HX & Hlen & Hcols) & Hj & Hrows & Hfits & _).
  unfold explain_body.
  apply wp_bind, wp_get_frame. rewrite HX.
  apply wp_bind, wp_uniform. rewrite Hlen.
  destruct (Hgen i Hi) as (u & -> & Hu).
  apply wp_bind. eapply wp_frame_setitem; [exact HX|].
  destruct (setitem_ok df "random_uniform_feature" u) as (df' & -> & Hlen' & Hcols');
    [congruence|].
  assert (columns df' = cols ++ ["random_uniform_feature"]) as Hc.
  { rewrite Hcols'. destruct Hcols as [->| ->].
    - by rewrite decide_False.
    - rewrite decide_True; [done|]. apply elem_of_app. right.
      by apply list_elem_of_singleton. }
  apply wp_bind, wp_get_frame. simpl. rewrite lookup_insert_eq.
  apply wp_bind, wp_split. rewrite Hlen', Hlen.
  destruct (Hsplit i Hi) as (tr & va & -> & Htr & Hva).
  apply wp_bind, wp_get_frame. simpl. rewrite lookup_insert_eq.
  apply wp_bind, wp_call.
  destruct (iloc_ok df' tr) as (Xt & -> & HXt); [by rewrite Hlen', Hlen|].
  apply wp_bind, wp_call.
  destruct (iloc_ok df' va) as (Xv & -> & HXv); [by rewrite Hlen', Hlen|].
  apply wp_bind, wp_call.
  destruct (take_ok y tr) as (Yt & -> & _); [by rewrite Hy|].
  apply wp_bind, wp_call.
  destruct (take_ok y va) as (Yv & -> & _); [by rewrite Hy|].
  apply wp_bind, wp_fit_get_shap. intros r h Hcall.
  destruct (Hexp (values Xt) Yt (values Xv) Yv (i + s) _ HR)
    as (A & h' & Hcall' & HR' & HA).
  simpl in Hcall. rewrite Hcall' in Hcall. injection Hcall as <- <-.
  apply wp_ret. unfold width_inv. simpl.
  split; [done|]. split.
  { exists df'. rewrite lookup_insert_eq. split; [done|]. split; [lia|]. by right. }
  split; [rewrite length_app; simpl; lia|].
  split.
  { apply Forall_app. split; [done|]. apply Forall_singleton.
    fold (importance B A). by rewrite length_importance. }
  split.
  { unfold fit_calls in *. rewrite !List.filter_app, !length_app. simpl. lia. }
  intros _. exists Xt. split; [done|]. by rewrite HXt.
Qed.

(** X8. No iterations. With a non-positive iteration count and a frame
    without the reserved column, [explain] makes the copy of the frame,
    calls no collaborator and raises [UnboundLocalError]: [X_train] was
    never bound. *)
Theorem explain_no_iterations (self : E) X y its v strat s σ df :
  frames σ !! X = Some df →
  random_col_name ∉ columns df →
  its ≤ 0 →
  explain B self X y its v strat s σ
  = (inl UnboundLocalError,
     set_frames (<[fresh (dom (frames σ)) := df]> (frames σ)) σ).
Proof.
  intros HX Hcol Hits.
  rewrite (explain_unfold B self X y its v strat s σ df HX Hcol).
  by rewrite seqZ_nil.
Qed.

(** X9. A matrix of the wrong width is found at the end only. When every
    call of the explainer returns a matrix with [w] columns and [w] is not
    the number of columns of the frame plus one, all iterations run (one
    call of the explainer each) and the run then raises [ValueError], when
    the table is built: no table is returned. *)
Theorem explain_wrong_width (self : E) (R : gmap ref Estimator → Prop)
        X y its v strat s σ df w :
  frames σ !! X = Some df →
  0 < its →
  random_col_name ∉ columns df →
  length y = len df →
  generator_ok B s its (len df) →
  splitter_ok B v strat its (len df) →
  R (models σ) →
  explainer_returns_width B self R w →
  w ≠ S (length (columns df)) →
  let out := explain B self X y its v strat s σ in
  out.1 = inl ValueError ∧
  fit_calls (trace out.2) = (fit_calls (trace σ) + Z.to_nat its)%nat.
Proof.
  intros HX Hits Hfresh Hy Hgen Hsplit HR Hexp Hw. cbv zeta.
  change (wp (explain B self X y its v strat s)
            (λ r σ', r = inl ValueError ∧
                     fit_calls (trace σ') = (fit_calls (trace σ) + Z.to_nat its)%nat) σ).
  unfold explain.
  apply wp_bind, wp_get_frame. rewrite HX.
  apply wp_bind, wp_assert. rewrite bool_decide_false by done. simpl.
  apply wp_bind, wp_copy_deep. rewrite HX.
  set (X' := fresh (dom (frames σ))).
  apply wp_bind.
  apply (wp_for_each _ (width_inv R σ X' (len df) (columns df) w)).
  - split; [done|]. split; [|by repeat split; simpl; auto with lia].
    exists df. simpl. rewrite lookup_insert_eq. by repeat split; auto.
  - intros j i vars σ1 Hi%lookup_seqZ HI.
    eapply wp_mono; [|by eapply (explain_body_width self R); eauto; lia].
    by intros [e|vars'] σ2.
  - intros [shaps Xt] σ1 (_ & _ & Hlen & Hrows & Hfits & HXt). simpl in *.
    rewrite length_seqZ in Hlen, HXt, Hfits.
    destruct HXt as (xt & -> & Hxt); [lia|].
    apply wp_bind, wp_call. rewrite (np_array_ok shaps _ Hrows).
    apply wp_call. rewrite (pd_DataFrame_wrong_width shaps _ w); [done| |done|].
    + intros ->. simpl in Hlen. lia.
    + rewrite Hxt, length_app. simpl. lia.
Qed.

(** X10. Labels shorter than the frame. When a position which the first
    split returns is beyond the end of [y], the run raises [IndexError] in
    its first iteration, before the explainer is called: no estimator is
    made or fitted. *)
Theorem explain_short_labels (self : E) X y its v strat s σ df u tr va :
  frames σ !! X = Some df →
  0 < its →
  random_col_name ∉ columns df →
  RandomState_uniform B (0 + s) (f64_of_Z (-1)) (f64_of_Z 1) (len df) = inr u →
  length u = len df →
  train_test_split B (seq 0 (len df)) v 0 strat = inr (tr, va) →
  Forall (λ k, (k < len df)%nat) (tr ++ va) →
  Exists (λ k, (length y ≤ k)%nat) (tr ++ va) →
  let out := explain B self X y its v strat s σ in
  out.1 = inl IndexError ∧
  models out.2 = models σ ∧
  fit_calls (trace out.2) = fit_calls (trace σ).
Proof.
  intros HX Hits Hfresh Hgen Hu Hsplit Hin Hout. cbv zeta.
  change (wp (explain B self X y its v strat s)
            (λ r σ', r = inl IndexError ∧ models σ' = models σ ∧
                     fit_calls (trace σ') = fit_calls (trace σ)) σ).
  apply Forall_app in Hin as [Htr Hva].
  unfold explain.
  apply wp_bind, wp_get_frame. rewrite HX.
  apply wp_bind, wp_assert. rewrite bool_decide_false by done. simpl.
  apply wp_bind, wp_copy_deep. rewrite HX.
  rewrite (seqZ_cons 0 its) by lia. simpl.
  apply wp_bind, wp_bind. unfold explain_body.
  apply wp_bind, wp_get_frame. simpl. rewrite lookup_insert_eq.
  apply wp_bind, wp_uniform. rewrite Hgen.
  apply wp_bind. eapply wp_frame_setitem; [apply lookup_insert_eq|].
  destruct (setitem_ok df "random_uniform_feature" u) as (df' & -> & Hlen' & _);
    [done|].
  apply wp_bind, wp_get_frame. simpl. rewrite lookup_insert_eq.
  apply wp_bind, wp_split. rewrite Hlen', Hsplit.
  apply wp_bind, wp_get_frame. simpl. rewrite lookup_insert_eq.
  apply wp_bind, wp_call.
  destruct (iloc_ok df' tr) as (Xt & -> & _); [by rewrite Hlen'|].
  apply wp_bind, wp_call.
  destruct (iloc_ok df' va) as (Xv & -> & _); [by rewrite Hlen'|].
  apply wp_bind, wp_call.
  destruct (take y tr) as [e|Yt] eqn:HYt.
  { apply take_error in HYt as ->. split; [done|]. split; [done|].
    unfold fit_calls. simpl. rewrite !List.filter_app, !length_app. simpl. lia. }
  apply wp_bind, wp_call.
  apply Exists_app in Hout as [Hout|Hout].
  { apply take_out_of_range in Hout. congruence. }
  rewrite (take_out_of_range y va Hout).
  split; [done|]. split; [done|].
  unfold fit_calls. simpl. rewrite !List.filter_app, !length_app. simpl. lia.
Qed.
End Edges.

(** The bound on the calls of the explainer, from the count before the
    iteration. *)
Ltac count_calls :=
  repeat split; try done;
  unfold fit_calls in *; simpl; rewrite ?List.filter_app, ?length_app; simpl;
  lia.

(** X11. A run with the deep-learning explainer never returns a table,
    never changes the estimators and calls the explainer once at most,
    whatever its arguments. *)
Theorem deep_learning_run_never_returns (B : Backend)
        (self : DeepLearningExplainer.t) X y its v strat s σ :
  let out := explain B self X y its v strat s σ in
  (∀ T, out.1 ≠ inr T) ∧ models out.2 = models σ ∧
  (fit_calls (trace out.2) ≤ S (fit_calls (trace σ)))%nat.
Proof.
  cbv zeta.
  change (wp (explain B self X y its v strat s)
            (λ r σ', (∀ T, r ≠ inr T) ∧ models σ' = models σ ∧
                     (fit_calls (trace σ') ≤ S (fit_calls (trace σ)))%nat) σ).
  unfold explain.
  apply wp_bind, wp_get_frame.
  destruct (frames σ !! X) as [df|] eqn:HX; [|by auto].
  apply wp_bind, wp_assert. destruct (negb _); simpl; [|by auto].
  apply wp_bind, wp_copy_deep. rewrite HX.
  apply wp_bind.
  apply (wp_for_each _ (λ j vars σ1, j = 0%nat ∧ vars.2 = None ∧
                                     models σ1 = models σ ∧
                                     fit_calls (trace σ1) = fit_calls (trace σ))).
  - done.
  - intros j i vars σ1 _ (_ & _ & Hm & Hc).
    cut (wp (explain_body B self (fresh (dom (frames σ))) y v strat s vars i)
            (λ r σ2, (∀ a, r ≠ inr a) ∧ models σ2 = models σ ∧
                     (fit_calls (trace σ2) ≤ S (fit_calls (trace σ)))%nat) σ1).
    { apply wp_mono. intros [e|a] σ2 (Hr & Hm' & Hc'); [done|]. by destruct (Hr a). }
    unfold explain_body.
    apply wp_bind, wp_get_frame.
    destruct (frames σ1 !! _) as [df1|] eqn:HX1; [|by auto with lia].
    apply wp_bind, wp_uniform.
    destruct (RandomState_uniform _ _ _ _ _) as [e|u]; [by count_calls|].
    apply wp_bind. eapply wp_frame_setitem; [exact HX1|].
    destruct (setitem df1 _ u) as [e|df']; [by count_calls|].
    apply wp_bind, wp_get_frame. simpl. rewrite lookup_insert_eq.
    apply wp_bind, wp_split.
    destruct (train_test_split _ _ _ _ _) as [e|[tr va]]; simpl;
      [by count_calls|].
    apply wp_bind, wp_get_frame. simpl. rewrite lookup_insert_eq.
    apply wp_bind, wp_call. destruct (iloc df' tr) as [e|Xt]; simpl;
      [by count_calls|].
    apply wp_bind, wp_call. destruct (iloc df' va) as [e|Xv]; simpl;
      [by count_calls|].
    apply wp_bind, wp_call. destruct (take y tr) as [e|Yt]; simpl;
      [by count_calls|].
    apply wp_bind, wp_call. destruct (take y va) as [e|Yv]; simpl;
      [by count_calls|].
    apply wp_bind, wp_fit_get_shap. intros r h [= <- <-]. simpl.
    by count_calls.
  - intros [shaps Xt] σ1 (_ & HXt & Hm & Hc). simpl in HXt. subst Xt.
    apply wp_bind, wp_call. destruct (np_array shaps); simpl;
      (split; [done|]); (split; [done|]); change (raise _ σ1).2 with σ1; lia.
Qed.

(** * The further properties on concrete runs *)

Lemma toy_explainer_returns_width (attribution : ndarray → ndarray) w :
  (∀ X, ncols (attribution X) = w) →
  explainer_returns_width (toy_backend attribution) toy_explainer
                          (λ h, h !! 0%nat = Some toy_forest) w.
Proof.
  intros Hw Xt Yt Xv Yv seed h Ht.
  pose proof (ensemble_result_spec (toy_backend attribution) toy_explainer
                Xt Yt Xv Yv seed h toy_forest Ht) as Hres.
  destruct (ensemble_fits_a_fresh_model (toy_backend attribution) toy_explainer
              Xt Yt Xv Yv seed h) as [Hkeep _].
  destruct (_fit_get_shap _ _ _ _ _ _ _ h) as [r h'].
  simpl in *. exists (attribution Xv), h'. subst r.
  split; [|split; [exact (eq_trans Hkeep Ht)|done]].
  unfold ensemble_result. by rewrite decide_True by (by apply elem_of_dom).
Qed.

Lemma toy_frame_well_formed : well_formed toy_frame.
Proof. by repeat constructor. Qed.

Lemma iterations_independent_witness :
  ∃ calls,
    trace (explain (toy_backend id) toy_explainer 0%nat toy_labels 2
                   f64_half None 0 toy_state).2
    = trace toy_state ++ concat calls ∧
    Forall2 (iteration_calls (toy_backend id) toy_frame toy_labels f64_half None 0)
            (seqZ 0 2) calls.
Proof.
  apply (iterations_independent (toy_backend id) toy_explainer 0%nat toy_labels
           2 f64_half None 0 toy_state toy_frame toy_table).
  - vm_compute. reflexivity.
  - apply toy_frame_well_formed.
  - vm_compute. reflexivity.
Defined.

Lemma explain_working_copy_witness :
  ∃ u, RandomState_uniform (toy_backend id) (2 - 1 + 0) (f64_of_Z (-1))
                           (f64_of_Z 1) (len toy_frame) = inr u ∧
       length u = len toy_frame ∧
       frames (explain (toy_backend id) toy_explainer 0%nat toy_labels 2
                       f64_half None 0 toy_state).2
       = <[fresh (dom (frames toy_state)) := with_feature toy_frame u]>
           (frames toy_state).
Proof.
  apply (explain_working_copy (toy_backend id) toy_explainer 0%nat toy_labels
           2 f64_half None 0 toy_state toy_frame toy_table).
  - vm_compute. reflexivity.
  - apply toy_frame_well_formed.
  - vm_compute. reflexivity.
Defined.

Lemma catboost_fits_with_eval_set_witness :
  (_fit_get_shap (toy_backend id) toy_catboost_explainer
                 (values toy_frame) toy_labels (values toy_frame) toy_labels 7
                 {[0%nat := toy_catboost]}).1
  = inr (values toy_frame).
Proof.
  assert (({[0%nat := toy_catboost]} : gmap ref Estimator)
            !! model toy_catboost_explainer = Some toy_catboost) as Ht
    by (vm_compute; reflexivity).
  destruct (catboost_fits_with_eval_set (toy_backend id) toy_catboost_explainer
              (values toy_frame) toy_labels (values toy_frame) toy_labels 7
              {[0%nat := toy_catboost]} toy_catboost Ht) as [Hout _].
  exact Hout.
Defined.

Lemma ensemble_needs_random_state_witness :
  _fit_get_shap (toy_backend id) toy_explainer
                (values toy_frame) toy_labels (values toy_frame) toy_labels 7
                {[0%nat := toy_seedless_forest]}
  = (inl ValueError,
     <[fresh (dom ({[0%nat := toy_seedless_forest]} : gmap ref Estimator)) :=
         unfitted toy_seedless_forest]> {[0%nat := toy_seedless_forest]}).
Proof.
  assert (({[0%nat := toy_seedless_forest]} : gmap ref Estimator)
            !! model toy_explainer = Some toy_seedless_forest) as Ht
    by (vm_compute; reflexivity).
  destruct (ensemble_needs_random_state (toy_backend id) toy_explainer
              (values toy_frame) toy_labels (values toy_frame) toy_labels 7
              {[0%nat := toy_seedless_forest]} toy_seedless_forest Ht)
    as [Hout _].
  apply Hout. by apply not_elem_of_dom.
Defined.

Lemma explain_no_iterations_witness :
  explain (toy_backend id) toy_explainer 0%nat toy_labels 0 f64_half None 0
          toy_state
  = (inl UnboundLocalError,
     set_frames (<[fresh (dom (frames toy_state)) := toy_frame]>
                   (frames toy_state)) toy_state).
Proof.
  apply (explain_no_iterations (toy_backend id) toy_explainer 0%nat toy_labels
           0 f64_half None 0 toy_state toy_frame).
  - vm_compute. reflexivity.
  - intros Hin. repeat (apply elem_of_cons in Hin as [Hin|Hin]; [discriminate|]).
    by apply elem_of_nil in Hin.
  - lia.
Defined.

Lemma explain_wrong_width_witness :
  let out := explain (toy_backend two_column_attribution) toy_explainer 0%nat
                     toy_labels 2 f64_half None 0 toy_state in
  out.1 = inl ValueError ∧
  fit_calls (trace out.2) = (fit_calls (trace toy_state) + Z.to_nat 2)%nat.
Proof.
  apply (explain_wrong_width (toy_backend two_column_attribution) toy_explainer
           (λ h, h !! 0%nat = Some toy_forest) 0%nat toy_labels 2 f64_half None
           0 toy_state toy_frame 2).
  - vm_compute. reflexivity.
  - lia.
  - intros Hin. repeat (apply elem_of_cons in Hin as [Hin|Hin]; [discriminate|]).
    by apply elem_of_nil in Hin.
  - reflexivity.
  - apply toy_generator_ok.
  - apply toy_splitter_ok; [reflexivity|unfold len; simpl; lia].
  - vm_compute. reflexivity.
  - by apply toy_explainer_returns_width.
  - simpl. lia.
Defined.

Lemma explain_short_labels_witness :
  let out := explain (toy_backend id) toy_explainer 0%nat toy_short_labels 2
                     f64_half None 0 toy_state in
  out.1 = inl IndexError ∧
  models out.2 = models toy_state ∧
  fit_calls (trace out.2) = fit_calls (trace toy_state).
Proof.
  apply (explain_short_labels (toy_backend id) toy_explainer 0%nat
           toy_short_labels 2 f64_half None 0 toy_state toy_frame
           [f64_of_Z (-1); f64_of_Z 0; f64_of_Z 1] [1; 2]%nat [0]%nat).
  - vm_compute. reflexivity.
  - lia.
  - intros Hin. repeat (apply elem_of_cons in Hin as [Hin|Hin]; [discriminate|]).
    by apply elem_of_nil in Hin.
  - vm_compute. reflexivity.
  - reflexivity.
  - vm_compute. reflexivity.
  - unfold len. simpl. repeat constructor.
  - apply Exists_cons_hd. simpl. lia.
Defined.

Lemma deep_learning_run_not_implemented_witness :
  let out := explain (toy_backend id) toy_deep_explainer 0%nat toy_labels 2
                     f64_half None 0 toy_deep_state in
  out.1 = inl NotImplementedError ∧
  models out.2 = models toy_deep_state ∧
  fit_calls (trace out.2) = S (fit_calls (trace toy_deep_state)).
Proof.
  apply (deep_learning_run_not_implemented (toy_backend id) toy_deep_explainer
           0%nat toy_labels 2 f64_half None 0 toy_deep_state toy_frame).
  - vm_compute. reflexivity.
  - lia.
  - intros Hin. repeat (apply elem_of_cons in Hin as [Hin|Hin]; [discriminate|]).
    by apply elem_of_nil in Hin.
  - reflexivity.
  - apply toy_generator_ok.
  - apply toy_splitter_ok; [reflexivity|unfold len; simpl; lia].
Defined.

(** The forest template after a run of two iterations. *)
Lemma run_keeps_estimators_witness :
  models (explain (toy_backend id) toy_explainer 0%nat toy_labels 2
                  f64_half None 0 toy_state).2 !! 0%nat
  = Some toy_forest.
Proof.
  destruct (run_keeps_estimators (toy_backend id) toy_catboost_explainer
              toy_explainer toy_linear_explainer toy_deep_explainer)
    as (_ & Hen & _).
  etrans; [apply (Hen 0%nat toy_labels 2 f64_half None 0 toy_state 0%nat)|].
  - vm_compute. by eexists.
  - vm_compute. reflexivity.
Defined.

(** The same run in the state which a first run left, with its fitted
    clones and its working copy. *)
Lemma shipped_explainers_run_deterministic_witness :
  let first := explain (toy_backend id) toy_explainer 0%nat toy_labels 2
                       f64_half None 0 toy_state in
  first.1 = (explain (toy_backend id) toy_explainer 0%nat toy_labels 2
                     f64_half None 0 first.2).1.
Proof.
  destruct (shipped_explainers_run_deterministic (toy_backend id)
              toy_catboost_explainer toy_explainer toy_linear_explainer
              toy_deep_explainer) as (_ & Hen & _).
  apply (Hen 0%nat 0%nat toy_labels 2 f64_half None 0 toy_state _ toy_frame
             toy_forest); vm_compute; reflexivity.
Defined.

(** The fraction 3/2 in a run of one iteration, and a run of no iteration
    with the fraction 1/2. *)
Lemma explain_invalid_arguments_witness :
  (let out := explain (toy_backend id) toy_explainer 0%nat toy_labels 1
                      f64_three_halves None 0 toy_state in
   out.1 = inl ValueError ∧
   trace out.2
   = trace toy_state ++ [EvUniform 0 (len toy_frame);
                         EvSplit (seq 0 (len toy_frame)) f64_three_halves 0 None] ∧
   fit_calls (trace out.2) = fit_calls (trace toy_state) ∧
   models out.2 = models toy_state ∧
   frames out.2
   = <[fresh (dom (frames toy_state))
       := with_feature toy_frame [f64_of_Z (-1); f64_of_Z 0; f64_of_Z 1]]>
       (frames toy_state)) ∧
  (let out := explain (toy_backend id) toy_explainer 0%nat toy_labels 0
                      f64_half None 0 toy_state in
   fails_before_first_iteration toy_state out ∧
   models out.2 = models toy_state).
Proof.
  split.
  - apply (proj2 (explain_invalid_arguments (toy_backend id) toy_explainer
                    0%nat toy_labels 1 f64_three_halves None 0 toy_state)).
    + lia.
    + vm_compute. reflexivity.
    + intros Hin.
      repeat (apply elem_of_cons in Hin as [Hin|Hin]; [discriminate|]).
      by apply elem_of_nil in Hin.
    + reflexivity.
    + reflexivity.
    + reflexivity.
  - apply (proj1 (explain_invalid_arguments (toy_backend id) toy_explainer
                    0%nat toy_labels 0 f64_half None 0 toy_state)).
    lia.
Defined.

(** C8 (as stated, refuted). A Keras model is a model which the
    deep-learning class supports; the call of its [_fit_get_shap] raises and
    the store of estimators has no estimator which it had not before: no
    fitted model was produced from the template. *)
Lemma deep_learning_fits_no_model :
  let h : gmap ref Estimator := {[0%nat := toy_keras]} in
  let out := _fit_get_shap (toy_backend id) toy_deep_explainer
                           (values toy_frame) toy_labels
                           (values toy_frame) toy_labels 0 h in
  supports_model (E := DeepLearningExplainer.t) (toy_backend id) toy_keras
  = inr true ∧
  h !! model toy_deep_explainer = Some toy_keras ∧
  out.1 = inl NotImplementedError ∧
  ¬ ∃ m, fits_new h out.2 m.
Proof.
  cbv zeta. split; [reflexivity|]. split; [by vm_compute|].
  split; [reflexivity|]. intros (m & l & Hold & Hnew). simpl in Hnew. congruence.
Qed.

(** The forest of the examples has a [random_state]: the call fits a clone
    seeded with 7. *)
Lemma template_never_mutated_witness :
  fits_new {[0%nat := toy_forest]}
           (_fit_get_shap (toy_backend id) toy_explainer
                          (values toy_frame) toy_labels
                          (values toy_frame) toy_labels 7
                          {[0%nat := toy_forest]}).2
           (fitted_on (values toy_frame) toy_labels None
                      (with_param "random_state" (VInt 7) (unfitted toy_forest))).
Proof.
  destruct (template_never_mutated (toy_backend id) toy_catboost_explainer
              toy_explainer toy_linear_explainer toy_deep_explainer)
    as (_ & _ & Hen & _).
  apply Hen.
  - vm_compute. reflexivity.
  - apply elem_of_dom. by eexists.
  - reflexivity.
Defined.


